(** * NBA live total calculator

    A shallow embedding of [nba_total_calc.py] and the proofs of the
    properties its specification states about it.

    Modelling conventions.
    - A Python [float] is an exact rational of [Q]: rounding, [inf] and [nan]
      are not modelled, so every numeric statement below is a statement
      under exact arithmetic.  Results are compared with [==] ([Qeq]).
    - A Python [int] is a [Z]; the implicit conversion to [float] is
      [inject_Z].
    - A Python [str] is a [string] of ASCII characters.
    - A raised exception is the left summand of [Py A]; [float] division
      checks its divisor and raises [ZeroDivisionError] on zero, as the
      interpreter does.
    - [datetime.now()] is an input ([now]) of [compute_projection]. *)

From Stdlib Require Import ZArith QArith Qabs Qround Qminmax Lqa Lia Bool List.
From Stdlib Require Import String Ascii DecimalString Sorted.
Import ListNotations.

Open Scope string_scope.
Open Scope Q_scope.

(** ** Exceptions *)

Inductive PyErr : Type :=
| ValueError (msg : string)
| ZeroDivisionError (msg : string).

Definition Py (A : Type) : Type := (PyErr + A)%type.

Definition ret {A : Type} (a : A) : Py A := inr a.

Definition raise {A : Type} (e : PyErr) : Py A := inl e.

Definition bind {A B : Type} (m : Py A) (k : A -> Py B) : Py B :=
  match m with
  | inl e => inl e
  | inr a => k a
  end.

Notation "x <- m ;; k" := (bind m (fun x => k))
  (at level 61, m at next level, right associativity).

(** ** Numbers *)

Definition Qlt_bool (x y : Q) : bool := negb (Qle_bool y x).

(** [x / y] on floats. *)
Definition py_div (x y : Q) : Py Q :=
  if Qeq_bool y 0 then raise (ZeroDivisionError "float division by zero")
  else ret (x / y).

(** [min(a, b)] and [max(a, b)]: the first argument is kept unless the
    second one is strictly better. *)
Definition py_min (a b : Q) : Q := if Qlt_bool b a then b else a.

Definition py_max (a b : Q) : Q := if Qlt_bool a b then b else a.

(** ** Strings *)

Module PyStr.

Definition code (c : ascii) : nat := nat_of_ascii c.

(** [str.isspace] on one ASCII character. *)
Definition is_space (c : ascii) : bool :=
  ((9 <=? code c) && (code c <=? 13) || (28 <=? code c) && (code c <=? 32))%nat.

Definition is_digit (c : ascii) : bool :=
  ((48 <=? code c) && (code c <=? 57))%nat.

Definition is_lower (c : ascii) : bool :=
  ((97 <=? code c) && (code c <=? 122))%nat.

Definition digit_val (c : ascii) : Z := Z.of_nat (code c) - 48.

Fixpoint lstrip (s : string) : string :=
  match s with
  | EmptyString => EmptyString
  | String c r => if is_space c then lstrip r else s
  end.

Fixpoint rstrip (s : string) : string :=
  match s with
  | EmptyString => EmptyString
  | String c r =>
      match rstrip r with
      | EmptyString => if is_space c then EmptyString else String c EmptyString
      | r' => String c r'
      end
  end.

(** [s.strip()] *)
Definition strip (s : string) : string := rstrip (lstrip s).

Definition upper_char (c : ascii) : ascii :=
  if is_lower c then ascii_of_nat (code c - 32) else c.

(** [s.upper()] *)
Fixpoint upper (s : string) : string :=
  match s with
  | EmptyString => EmptyString
  | String c r => String (upper_char c) (upper r)
  end.

(** [s.split(sep)] for a separator of one character. *)
Fixpoint split (sep : ascii) (s : string) : list string :=
  match s with
  | EmptyString => [EmptyString]
  | String c r =>
      if Ascii.eqb c sep then EmptyString :: split sep r
      else match split sep r with
           | h :: t => String c h :: t
           | [] => [String c EmptyString]
           end
  end.

(** [sep.join(l)] *)
Fixpoint join (sep : string) (l : list string) : string :=
  match l with
  | [] => EmptyString
  | [x] => x
  | x :: t => x ++ sep ++ join sep t
  end.

(** [s.startswith(p)] *)
Fixpoint startswith (p s : string) : bool :=
  match p with
  | EmptyString => true
  | String a p' =>
      match s with
      | EmptyString => false
      | String b s' => Ascii.eqb a b && startswith p' s'
      end
  end.

(** [needle in s] *)
Fixpoint contains (needle s : string) : bool :=
  startswith needle s ||
  match s with
  | EmptyString => false
  | String _ r => contains needle r
  end.

(** The digits of an [int] literal: decimal digits, where single
    underscores may separate digits.  [after_digit] tells whether the
    previous character was a digit. *)
Fixpoint int_digits (s : string) (acc : Z) (after_digit : bool) : option Z :=
  match s with
  | EmptyString => if after_digit then Some acc else None
  | String c r =>
      if is_digit c then int_digits r (10 * acc + digit_val c)%Z true
      else if Ascii.eqb c "_" && after_digit then int_digits r acc false
      else None
  end.

Definition int_literal_error (s : string) : PyErr :=
  ValueError ("invalid literal for int() with base 10: '" ++ s ++ "'").

(** [int(s)]: surrounding whitespace and one sign are accepted. *)
Definition int (s : string) : Py Z :=
  let t := strip s in
  let signed :=
    match t with
    | String c r =>
        if Ascii.eqb c "-" then (true, r)
        else if Ascii.eqb c "+" then (false, r)
        else (false, t)
    | EmptyString => (false, t)
    end in
  match int_digits (snd signed) 0 false with
  | Some n => ret (if fst signed then (- n)%Z else n)
  | None => raise (int_literal_error s)
  end.

(** The decimal digits of a natural number. *)
Definition dec_string (n : Z) : string :=
  NilZero.string_of_uint (N.to_uint (Z.to_N n)).

(** The last [d] decimal digits of [n], zero padded. *)
Fixpoint frac_digits (d : nat) (n : Z) : string :=
  match d with
  | O => EmptyString
  | S d' =>
      frac_digits d' (n / 10) ++
      String (ascii_of_nat (48 + Z.to_nat (n mod 10))) EmptyString
  end.

(** Rounding of a non-negative number to the nearest integer, ties to
    even. *)
Definition round_half_even (x : Q) : Z :=
  let f := Qfloor x in
  match Qcompare (x - inject_Z f) (1 # 2) with
  | Lt => f
  | Gt => (f + 1)%Z
  | Eq => if Z.even f then f else (f + 1)%Z
  end.

(** [f"{x:.<d>f}"] *)
Definition format_fixed (d : nat) (x : Q) : string :=
  let scale := (10 ^ Z.of_nat d)%Z in
  let n := round_half_even (Qabs x * inject_Z scale) in
  (if Qlt_bool x 0 then "-" else "") ++
  dec_string (n / scale) ++
  match d with
  | O => EmptyString
  | S _ => "." ++ frac_digits d (n mod scale)
  end.

End PyStr.

(** ** Helpers of the calculator *)

(** [parse_mmss]: minutes left, from ['mm:ss']. *)
Definition parse_mmss (s : string) : Py Q :=
  match PyStr.split ":" (PyStr.strip s) with
  | [p0; p1] =>
      mm <- PyStr.int p0 ;;
      ss <- PyStr.int p1 ;;
      if ((mm <? 0) || (ss <? 0) || (ss >=? 60))%Z
      then raise (ValueError "Invalid mm:ss.")
      else
        f <- py_div (inject_Z ss) 60 ;;
        ret (inject_Z mm + f)
  | _ => raise (ValueError "Time must be mm:ss (e.g., 7:10).")
  end.

Definition clamp (x lo hi : Q) : Q := py_max lo (py_min hi x).

Definition auto_alpha (elapsed_min : Q) : Q :=
  clamp (0.35 + 0.012 * elapsed_min) 0.35 0.90.

Definition dec_from_american (a : Q) : Py Q :=
  if Qeq_bool a 0 then raise (ValueError "American odds cannot be 0.")
  else if Qlt_bool a 0 then
    f <- py_div 100 (Qabs a) ;;
    ret (1 + f)
  else
    f <- py_div a 100 ;;
    ret (1 + f).


(** ** The projection *)

Record CalcResult : Type := mkCalcResult {
  timestamp : string;
  quarter : Z;
  time_left : string;
  total_points : Q;
  live_total : Q;
  pregame_total : Q;
  elapsed_min : Q;
  alpha_used : Q;
  pace_ppm : Q;
  pace_proj : Q;
  blended_proj : Q;
  edge_vs_live : Q;
  needed_ppm_for_live : Q;
  lean : string;
  flags : string
}.

(** Lines 78 to 81 of [compute_projection]: the minutes left on the clock
    and the minutes elapsed, with the bounds check. *)
Definition clock_elapsed (quarter : Z) (time_left_mmss : string) : Py (Q * Q) :=
  tleft <- parse_mmss time_left_mmss ;;
  let elapsed := inject_Z (quarter - 1) * 12 + (12 - tleft) in
  if Qle_bool elapsed 0 || Qlt_bool 48 elapsed
  then raise (ValueError "Elapsed time out of bounds. Check quarter/time left.")
  else ret (tleft, elapsed).

(** Lines 90 to 94: the additive boost. *)
Definition boost_of (bonus ft_parade : bool) (bonus_boost_ppm : Q) : Q :=
  let boost := 0 in
  let boost := if bonus then boost + bonus_boost_ppm else boost in
  let boost := if ft_parade then boost + 0.35 else boost in
  boost.

(** Line 96. *)
Definition blended_rate_of (alpha_used pace_ppm boost baseline_rate : Q) : Q :=
  alpha_used * (pace_ppm + boost) + (1 - alpha_used) * baseline_rate.

(** [l.append(x)] *)
Definition append (l : list string) (x : string) : list string :=
  (l ++ [x])%list.

(** Lines 107 to 133: the list [flags], in the order of its [append]s. *)
Definition projection_flags (quarter : Z) (tleft elapsed : Q)
    (bonus ft_parade : bool) (fta_total three_pt_pct : option Q)
    (ot_on : bool) (ot_prob_pct ot_expected_points : Q) : Py (list string) :=
  let flags : list string := [] in
  let flags :=
    if bonus && (quarter <=? 3)%Z && Qlt_bool 6 tleft
    then append flags "EARLY_BONUS_HIGH_RISK"
    else if bonus then append flags "BONUS/WHISTLES_ON"
    else flags in
  let flags := if ft_parade then append flags "FT_PARADE" else flags in
  flags <-
    match fta_total with
    | Some fta =>
        fta_per_min <- py_div fta elapsed ;;
        if Qle_bool 1.10 fta_per_min
        then ret (append flags ("HIGH_FT_RATE(" ++ PyStr.format_fixed 2 fta_per_min ++ "/min)"))
        else if Qle_bool 0.85 fta_per_min
        then ret (append flags ("ELEVATED_FT_RATE(" ++ PyStr.format_fixed 2 fta_per_min ++ "/min)"))
        else ret (append flags ("FT_RATE_OK(" ++ PyStr.format_fixed 2 fta_per_min ++ "/min)"))
    | None => ret flags
    end ;;
  let flags :=
    match three_pt_pct with
    | Some pct =>
        if Qle_bool 0.42 pct
        then append flags ("3P_HOT(" ++ PyStr.format_fixed 1 (pct * 100) ++ "%)")
        else if Qle_bool pct 0.31
        then append flags ("3P_COLD(" ++ PyStr.format_fixed 1 (pct * 100) ++ "%)")
        else append flags ("3P_NORMAL(" ++ PyStr.format_fixed 1 (pct * 100) ++ "%)")
    | None => flags
    end in
  if ot_on then
    f <- py_div ot_prob_pct 100 ;;
    ret (append flags ("OT_ON(" ++ PyStr.format_fixed 1 ot_prob_pct ++ "% -> +"
                     ++ PyStr.format_fixed 1 (f * ot_expected_points) ++ " pts)"))
  else ret flags.

(** Lines 136 to 140. *)
Definition lean_of (edge edge_threshold : Q) : string :=
  if Qle_bool edge_threshold edge then "LEAN: OVER"
  else if Qle_bool edge (- edge_threshold) then "LEAN: UNDER"
  else "PASS / WAIT".

(** Line 159. *)
Definition flags_field (flags : list string) : string :=
  match flags with
  | [] => "NONE"
  | _ => PyStr.join ";" flags
  end.

Definition compute_projection (now : string)
    (quarter : Z) (time_left_mmss : string)
    (total_points live_total pregame_total : Q)
    (alpha : option Q) (edge_threshold : Q)
    (bonus ft_parade : bool) (bonus_boost_ppm : Q)
    (fta_total three_pt_pct : option Q)
    (ot_on : bool) (ot_prob_pct ot_expected_points : Q) : Py CalcResult :=
  te <- clock_elapsed quarter time_left_mmss ;;
  let tleft := fst te in
  let elapsed := snd te in
  let alpha_used :=
    match alpha with
    | None => auto_alpha elapsed
    | Some a => clamp a 0.05 0.95
    end in
  pace_ppm <- py_div total_points elapsed ;;
  let pace_proj := pace_ppm * 48 in
  baseline_rate <- py_div pregame_total 48 ;;
  let boost := boost_of bonus ft_parade bonus_boost_ppm in
  let blended_rate := blended_rate_of alpha_used pace_ppm boost baseline_rate in
  let blended_proj := total_points + blended_rate * (48 - elapsed) in
  blended_proj <-
    (if ot_on then
       f <- py_div ot_prob_pct 100 ;;
       let ot_adj := f * ot_expected_points in
       ret (blended_proj + ot_adj)
     else ret blended_proj) ;;
  needed_ppm <- py_div (live_total - total_points) (48 - elapsed) ;;
  let edge := blended_proj - live_total in
  flags <- projection_flags quarter tleft elapsed bonus ft_parade
             fta_total three_pt_pct ot_on ot_prob_pct ot_expected_points ;;
  let lean := lean_of edge edge_threshold in
  ret {| timestamp := now;
         quarter := quarter;
         time_left := time_left_mmss;
         total_points := total_points;
         live_total := live_total;
         pregame_total := pregame_total;
         elapsed_min := elapsed;
         alpha_used := alpha_used;
         pace_ppm := pace_ppm;
         pace_proj := pace_proj;
         blended_proj := blended_proj;
         edge_vs_live := edge;
         needed_ppm_for_live := needed_ppm;
         lean := lean;
         flags := flags_field flags |}.

(** ** The hedge *)

Record HedgeResult : Type := mkHedgeResult {
  suggestion : string;
  equalized_hedge_stake : Q;
  middle_note : string;
  worst_case_profit : Q;
  best_case_profit : Q
}.

(** [sum(p(f) for f in flags)] for a boolean [p]. *)
Definition sum_bool (p : string -> bool) (flags : list string) : Z :=
  fold_left (fun acc f => (acc + if p f then 1 else 0)%Z) flags 0%Z.

(** Line 193. *)
Definition is_bad (f : string) : bool :=
  PyStr.contains "HIGH_RISK" f || PyStr.contains "FT_PARADE" f
  || PyStr.contains "HIGH_FT_RATE" f.

(** Line 194. *)
Definition is_warn (f : string) : bool :=
  PyStr.contains "BONUS" f || PyStr.contains "ELEVATED_FT_RATE" f
  || PyStr.contains "3P_" f || PyStr.contains "OT_ON" f.

(** Line 192: the closing-line value, for the normalised side. *)
Definition clv_of (my_side : string) (my_line live_total : Q) : Q :=
  if String.eqb my_side "UNDER" then my_line - live_total
  else live_total - my_line.

(** Lines 196 to 203. *)
Definition suggestion_of (clv : Q) (bad warn : Z) : string :=
  if Qle_bool 6 clv && ((1 <=? bad)%Z || (2 <=? warn)%Z)
  then "Consider SMALL hedge"
  else if Qle_bool 6 clv then "Hold (good CLV)"
  else if Qle_bool 3 clv && (1 <=? bad)%Z then "Watch closely (whistle risk)"
  else "No hedge signal".

(** Lines 206 to 215, for the normalised side. *)
Definition middle_note_of (my_side : string) (my_line hedge_line : Q) : string :=
  if String.eqb my_side "UNDER" then
    if Qlt_bool hedge_line my_line
    then "Middle range (both win): " ++ PyStr.format_fixed 1 hedge_line
           ++ " to " ++ PyStr.format_fixed 1 my_line ++ " (excluding pushes)."
    else "No classic middle (hedge line not below your under line)."
  else
    if Qlt_bool my_line hedge_line
    then "Middle range (both win): " ++ PyStr.format_fixed 1 my_line
           ++ " to " ++ PyStr.format_fixed 1 hedge_line ++ " (excluding pushes)."
    else "No classic middle (hedge line not above your over line).".

Definition hedge_equalize (my_side : string) (my_line my_stake my_odds_american : Q)
    (hedge_line hedge_odds_american live_total : Q)
    (flags : list string) : Py HedgeResult :=
  let my_side := PyStr.strip (PyStr.upper my_side) in
  if negb (String.eqb my_side "UNDER" || String.eqb my_side "OVER")
  then raise (ValueError "my_side must be UNDER or OVER.")
  else
    dec0 <- dec_from_american my_odds_american ;;
    dech <- dec_from_american hedge_odds_american ;;
    hedge_stake <- py_div (my_stake * dec0) dech ;;
    let clv := clv_of my_side my_line live_total in
    let bad := sum_bool is_bad flags in
    let warn := sum_bool is_warn flags in
    let suggestion := suggestion_of clv bad warn in
    let middle_note := middle_note_of my_side my_line hedge_line in
    let win0 := my_stake * (dec0 - 1) in
    let lose0 := - my_stake in
    let winh := hedge_stake * (dech - 1) in
    let loseh := - hedge_stake in
    let worst := py_min (win0 + loseh) (lose0 + winh) in
    let best := win0 + winh in
    ret {| suggestion := suggestion;
           equalized_hedge_stake := hedge_stake;
           middle_note := middle_note;
           worst_case_profit := worst;
           best_case_profit := best |}.

(** Line 359 of [main]: the flag list handed to [hedge_equalize]. *)
Definition flags_list_of (flags : string) : list string :=
  if String.eqb flags "NONE" then [] else PyStr.split ";" flags.


(** * Vocabulary of the specification *)

(** ** Clock readings

    A well-formed clock reading is a run of decimal digits, a colon, and a
    run of decimal digits; a run of digits denotes a number in positional
    notation. *)

Fixpoint decimal_value (ds : list nat) : Z :=
  match ds with
  | [] => 0%Z
  | d :: r => (Z.of_nat d * 10 ^ Z.of_nat (List.length r) + decimal_value r)%Z
  end.

Definition digit_char (d : nat) : ascii := ascii_of_nat (48 + d).

Arguments digit_char : simpl never.

Fixpoint digit_string (ds : list nat) : string :=
  match ds with
  | [] => EmptyString
  | d :: r => String (digit_char d) (digit_string r)
  end.

Definition is_digits (ds : list nat) : Prop :=
  ds <> [] /\ Forall (fun d => (d < 10)%nat) ds.

Definition clock_string (ms ss : list nat) : string :=
  digit_string ms ++ ":" ++ digit_string ss.

(** The elapsed minutes the specification gives for quarter [q] with [m]
    minutes and [s] seconds left. *)
Definition spec_elapsed (q m s : Z) : Q :=
  inject_Z (q - 1) * 12 + (12 - inject_Z m - inject_Z s / 60).

Definition out_of_bounds : PyErr :=
  ValueError "Elapsed time out of bounds. Check quarter/time left.".

(** ** Hedge vocabulary *)

Inductive Side : Type := OVER | UNDER.

Definition side_text (sd : Side) : string :=
  match sd with
  | OVER => "OVER"
  | UNDER => "UNDER"
  end.

(** The side a string stands for: stripped of whitespace, then upper-cased. *)
Definition side_of (s : string) : option Side :=
  let n := PyStr.upper (PyStr.strip s) in
  if String.eqb n "OVER" then Some OVER
  else if String.eqb n "UNDER" then Some UNDER
  else None.

Inductive Suggestion : Type := NO_SIGNAL | WATCH | SMALL_HEDGE | HOLD.

(** The message of each suggestion. *)
Definition suggestion_text (sg : Suggestion) : string :=
  match sg with
  | SMALL_HEDGE => "Consider SMALL hedge"
  | HOLD => "Hold (good CLV)"
  | WATCH => "Watch closely (whistle risk)"
  | NO_SIGNAL => "No hedge signal"
  end.

Definition spec_clv (sd : Side) (myLine liveMarketTotal : Q) : Q :=
  match sd with
  | UNDER => myLine - liveMarketTotal
  | OVER => liveMarketTotal - myLine
  end.

(** [needle] occurs in [s]. *)
Definition Contains (needle s : string) : Prop :=
  exists pre post, s = pre ++ needle ++ post.

(** The number of flags that satisfy [p]. *)
Definition count_flags (p : string -> bool) (flags : list string) : nat :=
  List.length (filter p flags).

(** [f] contains one of the [needles]. *)
Definition mentions_any (needles : list string) (f : string) : bool :=
  existsb (fun n => PyStr.contains n f) needles.

Definition spec_badCount (flags : list string) : nat :=
  count_flags (mentions_any ["HIGH_RISK"; "FT_PARADE"; "HIGH_FT_RATE"]) flags.

Definition spec_warnCount (flags : list string) : nat :=
  count_flags (mentions_any ["BONUS"; "ELEVATED_FT_RATE"; "3P_"; "OT_ON"]) flags.

(** The decision table of the specification, read top to bottom: a row
    applies when its condition holds and no earlier row applies. *)
Inductive spec_suggestion (clv : Q) (badCount warnCount : nat) : Suggestion -> Prop :=
| row_small_hedge :
    6 <= clv -> (1 <= badCount \/ 2 <= warnCount)%nat ->
    spec_suggestion clv badCount warnCount SMALL_HEDGE
| row_hold :
    6 <= clv -> ~ (1 <= badCount \/ 2 <= warnCount)%nat ->
    spec_suggestion clv badCount warnCount HOLD
| row_watch :
    ~ 6 <= clv -> 3 <= clv -> (1 <= badCount)%nat ->
    spec_suggestion clv badCount warnCount WATCH
| row_no_signal :
    ~ 6 <= clv -> ~ (3 <= clv /\ (1 <= badCount)%nat) ->
    spec_suggestion clv badCount warnCount NO_SIGNAL.

(** The note that reports the middle between [lo] and [hi]. *)
Definition middle_text (lo hi : Q) : string :=
  "Middle range (both win): " ++ PyStr.format_fixed 1 lo
    ++ " to " ++ PyStr.format_fixed 1 hi ++ " (excluding pushes).".

Definition reports_middle (note : string) : Prop :=
  PyStr.startswith "Middle range (both win): " note = true.

Definition reports_no_middle (note : string) : Prop :=
  PyStr.startswith "No classic middle" note = true.

(** Decimal odds of the specification. *)
Definition spec_decimal (a : Q) : Q :=
  if Qlt_le_dec a 0 then 1 + 100 / Qabs a else 1 + a / 100.

(** ** Flag vocabulary

    The flags of a projection as tagged variants: a label, and the category
    the label belongs to.  The categories are ranked in the order in which
    the projection detects them. *)

Inductive FlagCategory : Type :=
| BonusFlag | FtParadeFlag | FtRateFlag | ThreePointFlag | OvertimeFlag.

Inductive FlagLabel : Type :=
| EARLY_BONUS_HIGH_RISK | BONUS_WHISTLES_ON
| FT_PARADE
| HIGH_FT_RATE | ELEVATED_FT_RATE | FT_RATE_OK
| THREE_P_HOT | THREE_P_COLD | THREE_P_NORMAL
| OT_ON.

Definition label_category (l : FlagLabel) : FlagCategory :=
  match l with
  | EARLY_BONUS_HIGH_RISK | BONUS_WHISTLES_ON => BonusFlag
  | FT_PARADE => FtParadeFlag
  | HIGH_FT_RATE | ELEVATED_FT_RATE | FT_RATE_OK => FtRateFlag
  | THREE_P_HOT | THREE_P_COLD | THREE_P_NORMAL => ThreePointFlag
  | OT_ON => OvertimeFlag
  end.

Definition category_rank (c : FlagCategory) : nat :=
  match c with
  | BonusFlag => 0
  | FtParadeFlag => 1
  | FtRateFlag => 2
  | ThreePointFlag => 3
  | OvertimeFlag => 4
  end.

(** The text a flag of each label starts with; labels with a numeric
    payload open a parenthesis. *)
Definition label_text (l : FlagLabel) : string :=
  match l with
  | EARLY_BONUS_HIGH_RISK => "EARLY_BONUS_HIGH_RISK"
  | BONUS_WHISTLES_ON => "BONUS/WHISTLES_ON"
  | FT_PARADE => "FT_PARADE"
  | HIGH_FT_RATE => "HIGH_FT_RATE("
  | ELEVATED_FT_RATE => "ELEVATED_FT_RATE("
  | FT_RATE_OK => "FT_RATE_OK("
  | THREE_P_HOT => "3P_HOT("
  | THREE_P_COLD => "3P_COLD("
  | THREE_P_NORMAL => "3P_NORMAL("
  | OT_ON => "OT_ON("
  end.

Definition all_labels : list FlagLabel :=
  [EARLY_BONUS_HIGH_RISK; BONUS_WHISTLES_ON; FT_PARADE; HIGH_FT_RATE;
   ELEVATED_FT_RATE; FT_RATE_OK; THREE_P_HOT; THREE_P_COLD; THREE_P_NORMAL;
   OT_ON].

(** The label of a flag string. *)
Definition flag_label (f : string) : option FlagLabel :=
  find (fun l => PyStr.startswith (label_text l) f) all_labels.

(** Detection order: the category of the first label is ranked strictly
    before the category of the second. *)
Definition detected_before (l1 l2 : FlagLabel) : Prop :=
  (category_rank (label_category l1) < category_rank (label_category l2))%nat.

Definition is_ft_rate (l : FlagLabel) : bool :=
  match label_category l with
  | FtRateFlag => true
  | _ => false
  end.

(** The detection rules of the specification, one per category. *)
Definition spec_bonus_labels (bonusActive : bool) (q : Z) (minutesRemaining : Q)
  : list FlagLabel :=
  if bonusActive && (q <=? 3)%Z && Qlt_bool 6 minutesRemaining
  then [EARLY_BONUS_HIGH_RISK]
  else if bonusActive then [BONUS_WHISTLES_ON] else [].

Definition spec_parade_labels (ftParadeActive : bool) : list FlagLabel :=
  if ftParadeActive then [FT_PARADE] else [].

Definition spec_ft_rate_labels (attempts : option Q) (elapsedMinutes : Q)
  : list FlagLabel :=
  match attempts with
  | Some a =>
      if Qle_bool 1.10 (a / elapsedMinutes) then [HIGH_FT_RATE]
      else if Qle_bool 0.85 (a / elapsedMinutes) then [ELEVATED_FT_RATE]
      else [FT_RATE_OK]
  | None => []
  end.

Definition spec_three_point_labels (pct : option Q) : list FlagLabel :=
  match pct with
  | Some p =>
      if Qle_bool 0.42 p then [THREE_P_HOT]
      else if Qle_bool p 0.31 then [THREE_P_COLD]
      else [THREE_P_NORMAL]
  | None => []
  end.

Definition spec_overtime_labels (overtime : bool) : list FlagLabel :=
  if overtime then [OT_ON] else [].

Definition spec_labels (q : Z) (minutesRemaining elapsedMinutes : Q)
    (bonusActive ftParadeActive : bool) (attempts pct : option Q)
    (overtime : bool) : list FlagLabel :=
  (spec_bonus_labels bonusActive q minutesRemaining
   ++ spec_parade_labels ftParadeActive
   ++ spec_ft_rate_labels attempts elapsedMinutes
   ++ spec_three_point_labels pct
   ++ spec_overtime_labels overtime)%list.

(** [c] occurs in [s]. *)
Fixpoint has_char (c : ascii) (s : string) : bool :=
  match s with
  | EmptyString => false
  | String x r => Ascii.eqb x c || has_char c r
  end.

(** The number of occurrences of [c] in [s]. *)
Fixpoint count_char (c : ascii) (s : string) : nat :=
  match s with
  | EmptyString => 0
  | String x r => (if Ascii.eqb x c then 1 else 0) + count_char c r
  end.

(** [s] is made of whitespace only. *)
Fixpoint all_space (s : string) : bool :=
  match s with
  | EmptyString => true
  | String x r => PyStr.is_space x && all_space r
  end.

Definition bad_format : PyErr := ValueError "Time must be mm:ss (e.g., 7:10).".

Definition bad_component : PyErr := ValueError "Invalid mm:ss.".

(** ** From the projection to the hedge *)

(** The characters of a formatted number. *)
Definition payload_char (c : ascii) : bool :=
  PyStr.is_digit c || Ascii.eqb c "-" || Ascii.eqb c ".".

Fixpoint all_payload (s : string) : bool :=
  match s with
  | EmptyString => true
  | String x r => payload_char x && all_payload r
  end.

(** [s] does not start with [b]. *)
Definition head_differs (b : ascii) (s : string) : bool :=
  match s with
  | EmptyString => true
  | String c _ => negb (Ascii.eqb b c)
  end.

(** The number of flags of a projection that the hedge counts as bad, and
    as warnings, in terms of the inputs of the projection. *)
Definition bad_flag_count (q : Z) (tl e : Q) (b fp : bool) (fta : option Q) : Z :=
  (Z.b2z (b && (q <=? 3)%Z && Qlt_bool 6 tl)
   + Z.b2z fp
   + Z.b2z match fta with
           | Some a => Qle_bool 1.10 (a / e)
           | None => false
           end)%Z.

Definition warn_flag_count (e : Q) (b : bool) (fta tpp : option Q) (ot : bool) : Z :=
  (Z.b2z b
   + Z.b2z match fta with
           | Some a => negb (Qle_bool 1.10 (a / e)) && Qle_bool 0.85 (a / e)
           | None => false
           end
   + Z.b2z match tpp with
           | Some _ => true
           | None => false
           end
   + Z.b2z ot)%Z.

(** * Properties *)

(** ** Comparisons and division *)

Lemma Qlt_bool_iff (x y : Q) : Qlt_bool x y = true <-> x < y.
Proof.
  unfold Qlt_bool. rewrite negb_true_iff.
  split; intro H.
  - apply Qnot_le_lt. intro Hle. apply Qle_bool_iff in Hle. congruence.
  - destruct (Qle_bool y x) eqn:E; [|reflexivity].
    apply Qle_bool_iff in E. exfalso. apply (Qlt_not_le _ _ H E).
Qed.

Lemma Qlt_bool_false_iff (x y : Q) : Qlt_bool x y = false <-> y <= x.
Proof.
  unfold Qlt_bool. rewrite negb_false_iff. apply Qle_bool_iff.
Qed.

Lemma Qle_bool_false_iff (x y : Q) : Qle_bool x y = false <-> y < x.
Proof.
  rewrite <- Qlt_bool_iff. unfold Qlt_bool.
  destruct (Qle_bool x y); simpl; split; congruence.
Qed.

Lemma Qeq_bool_false_iff (x y : Q) : Qeq_bool x y = false <-> ~ x == y.
Proof.
  split; intro H.
  - apply Qeq_bool_neq. exact H.
  - destruct (Qeq_bool x y) eqn:E; [|reflexivity].
    apply Qeq_bool_iff in E. contradiction.
Qed.

(** The three tests above, turned into propositions in the context and
    the goal. *)
Ltac qbool :=
  repeat match goal with
  | H : Qle_bool _ _ = true |- _ => apply Qle_bool_iff in H
  | H : Qle_bool _ _ = false |- _ => apply Qle_bool_false_iff in H
  | H : Qlt_bool _ _ = true |- _ => apply Qlt_bool_iff in H
  | H : Qlt_bool _ _ = false |- _ => apply Qlt_bool_false_iff in H
  | H : Qeq_bool _ _ = true |- _ => apply Qeq_bool_iff in H
  | H : Qeq_bool _ _ = false |- _ => apply Qeq_bool_false_iff in H
  end.

Lemma py_div_ok (x y : Q) : ~ y == 0 -> py_div x y = inr (x / y).
Proof.
  intro H. unfold py_div. apply Qeq_bool_false_iff in H. rewrite H. reflexivity.
Qed.

Lemma py_div_zero (x y : Q) :
  y == 0 -> py_div x y = inl (ZeroDivisionError "float division by zero").
Proof.
  intro H. unfold py_div. apply Qeq_bool_iff in H. rewrite H. reflexivity.
Qed.

Lemma py_div_inv (x y r : Q) : py_div x y = inr r -> ~ y == 0 /\ r = x / y.
Proof.
  unfold py_div. destruct (Qeq_bool y 0) eqn:E; intro H.
  - discriminate.
  - qbool. injection H as <-. auto.
Qed.

Lemma bind_inr {A B : Type} (m : Py A) (k : A -> Py B) (b : B) :
  bind m k = inr b -> exists a, m = inr a /\ k a = inr b.
Proof.
  destruct m as [e|a]; simpl; intro H; [discriminate|eauto].
Qed.

(** ** Clamping *)

Lemma py_min_spec (a b : Q) : py_min a b == Qmin a b.
Proof.
  unfold py_min. destruct (Qlt_bool b a) eqn:E; qbool.
  - symmetry. apply Q.min_r. apply Qlt_le_weak, E.
  - symmetry. apply Q.min_l. exact E.
Qed.

Lemma py_max_spec (a b : Q) : py_max a b == Qmax a b.
Proof.
  unfold py_max. destruct (Qlt_bool a b) eqn:E; qbool.
  - symmetry. apply Q.max_r. apply Qlt_le_weak, E.
  - symmetry. apply Q.max_l. exact E.
Qed.

Lemma clamp_cases (x lo hi : Q) :
  lo <= hi ->
  (x <= lo /\ clamp x lo hi == lo) \/
  (lo <= x <= hi /\ clamp x lo hi = x) \/
  (hi <= x /\ clamp x lo hi == hi).
Proof.
  intro Hlh. unfold clamp, py_max, py_min.
  destruct (Qlt_bool x hi) eqn:E1.
  - destruct (Qlt_bool lo x) eqn:E2; qbool.
    + right; left. split; [lra|reflexivity].
    + left. split; [lra|reflexivity].
  - destruct (Qlt_bool lo hi) eqn:E2; qbool.
    + right; right. split; [lra|reflexivity].
    + right; right. split; lra.
Qed.

Lemma clamp_bounds (x lo hi : Q) : lo <= hi -> lo <= clamp x lo hi <= hi.
Proof.
  intro H. destruct (clamp_cases x lo hi H) as [[? E]|[[? E]|[? E]]];
    rewrite E; lra.
Qed.

Lemma clamp_mono (x y lo hi : Q) :
  lo <= hi -> x <= y -> clamp x lo hi <= clamp y lo hi.
Proof.
  intros H Hxy.
  destruct (clamp_cases x lo hi H) as [[? Ex]|[[? Ex]|[? Ex]]];
  destruct (clamp_cases y lo hi H) as [[? Ey]|[[? Ey]|[? Ey]]];
    rewrite Ex, Ey; lra.
Qed.

Lemma clamp_spec (x lo hi : Q) : clamp x lo hi == Qmax lo (Qmin hi x).
Proof.
  unfold clamp. rewrite py_max_spec.
  apply Q.max_compat; [reflexivity|apply py_min_spec].
Qed.

(** ** Inversion of the projection *)

(** Splits a successful monadic computation in the context into its
    successful steps. *)
Ltac monad_inv H :=
  match type of H with
  | bind _ _ = inr _ =>
      let a := fresh "a" in
      let Ha := fresh "Hstep" in
      apply bind_inr in H; destruct H as (a & Ha & H); monad_inv H
  | ret _ = inr _ => unfold ret in H; injection H as H
  | inr _ = inr _ => injection H as H
  | _ => idtac
  end.

Lemma clock_elapsed_inv (q : Z) (t : string) (tl e : Q) :
  clock_elapsed q t = inr (tl, e) ->
  parse_mmss t = inr tl /\
  e = inject_Z (q - 1) * 12 + (12 - tl) /\
  0 < e /\ e <= 48.
Proof.
  unfold clock_elapsed. intro H.
  apply bind_inr in H. destruct H as (tl' & Hp & H).
  destruct (Qle_bool _ 0) eqn:E1; [discriminate|].
  destruct (Qlt_bool 48 _) eqn:E2; [discriminate|].
  simpl in H. injection H as <- <-. qbool. auto.
Qed.

Lemma clock_elapsed_ok (q : Z) (t : string) (tl : Q) :
  parse_mmss t = inr tl ->
  0 < inject_Z (q - 1) * 12 + (12 - tl) <= 48 ->
  clock_elapsed q t = inr (tl, inject_Z (q - 1) * 12 + (12 - tl)).
Proof.
  intros Hp [H0 H48]. unfold clock_elapsed. rewrite Hp. simpl.
  apply Qle_bool_false_iff in H0. apply Qlt_bool_false_iff in H48.
  rewrite H0, H48. reflexivity.
Qed.

Lemma clock_elapsed_out_of_bounds (q : Z) (t : string) (tl : Q) :
  parse_mmss t = inr tl ->
  inject_Z (q - 1) * 12 + (12 - tl) <= 0 \/ 48 < inject_Z (q - 1) * 12 + (12 - tl) ->
  clock_elapsed q t =
    inl (ValueError "Elapsed time out of bounds. Check quarter/time left.").
Proof.
  intros Hp H. unfold clock_elapsed. rewrite Hp. simpl.
  destruct H as [H|H].
  - apply Qle_bool_iff in H. rewrite H. reflexivity.
  - apply Qlt_bool_iff in H. rewrite H, orb_true_r. reflexivity.
Qed.

Lemma projection_flags_total (q : Z) (tl e : Q) (b fp : bool)
    (fta tpp : option Q) (ot : bool) (otp otpts : Q) :
  ~ e == 0 ->
  exists fl, projection_flags q tl e b fp fta tpp ot otp otpts = inr fl.
Proof.
  intro He. unfold projection_flags.
  destruct fta as [a|]; simpl.
  - rewrite (py_div_ok a e He). simpl.
    destruct (Qle_bool 1.10 (a / e)); [|destruct (Qle_bool 0.85 (a / e))];
      simpl; destruct ot; simpl; eauto.
  - destruct ot; simpl; eauto.
Qed.

Section ProjectionCall.

Variables (now : string) (q : Z) (t : string) (tp lt pt : Q)
          (alpha : option Q) (thr : Q) (b fp : bool) (bb : Q)
          (fta tpp : option Q) (ot : bool) (otp otpts : Q).

Local Abbreviation call :=
  (compute_projection now q t tp lt pt alpha thr b fp bb
     fta tpp ot otp otpts).

(** What a returned result is made of. *)
Lemma compute_projection_inv (r : CalcResult) :
  call = inr r ->
  exists tl fl,
    clock_elapsed q t = inr (tl, elapsed_min r) /\
    0 < elapsed_min r /\ elapsed_min r < 48 /\
    alpha_used r =
      match alpha with
      | None => auto_alpha (elapsed_min r)
      | Some a => clamp a 0.05 0.95
      end /\
    pace_ppm r = tp / elapsed_min r /\
    pace_proj r = pace_ppm r * 48 /\
    blended_proj r =
      (let base := tp + blended_rate_of (alpha_used r) (pace_ppm r)
                          (boost_of b fp bb) (pt / 48)
                        * (48 - elapsed_min r) in
       if ot then base + otp / 100 * otpts else base) /\
    edge_vs_live r = blended_proj r - lt /\
    needed_ppm_for_live r = (lt - tp) / (48 - elapsed_min r) /\
    lean r = lean_of (edge_vs_live r) thr /\
    projection_flags q tl (elapsed_min r) b fp fta tpp ot otp otpts = inr fl /\
    flags r = flags_field fl /\
    total_points r = tp /\ live_total r = lt /\ pregame_total r = pt.
Proof.
  unfold compute_projection. intro H.
  apply bind_inr in H. destruct H as ([tl e] & Hc & H).
  cbv beta iota zeta delta [fst snd] in H.
  apply bind_inr in H. destruct H as (pace & Hpace & H).
  apply bind_inr in H. destruct H as (base & Hbase & H).
  apply bind_inr in H. destruct H as (bp & Hbp & H).
  apply bind_inr in H. destruct H as (need & Hneed & H).
  apply bind_inr in H. destruct H as (fl & Hfl & H).
  injection H as <-. simpl.
  destruct (clock_elapsed_inv _ _ _ _ Hc) as (_ & _ & Hpos & Hle).
  apply py_div_inv in Hpace. destruct Hpace as [_ ->].
  apply py_div_inv in Hbase. destruct Hbase as [_ ->].
  apply py_div_inv in Hneed. destruct Hneed as [Hne ->].
  exists tl, fl. repeat split; try reflexivity; try assumption.
  - apply Qle_lt_or_eq in Hle. destruct Hle as [Hlt|Heq]; [exact Hlt|].
    exfalso. apply Hne. rewrite Heq. reflexivity.
  - destruct ot; simpl in Hbp; injection Hbp as <-; reflexivity.
Qed.

(** A clock strictly inside regulation always yields a result. *)
Lemma compute_projection_total (tl e : Q) :
  clock_elapsed q t = inr (tl, e) -> ~ e == 48 ->
  exists r, call = inr r /\ elapsed_min r = e.
Proof.
  intros Hc Hne. unfold compute_projection. rewrite Hc. simpl.
  destruct (clock_elapsed_inv _ _ _ _ Hc) as (_ & _ & Hpos & Hle).
  assert (He0 : ~ e == 0) by (intro E; rewrite E in Hpos; lra).
  rewrite (py_div_ok tp e He0). simpl.
  assert (Hd : ~ 48 - e == 0) by (intro E; apply Hne; lra).
  destruct (projection_flags_total q tl e b fp fta tpp ot otp otpts He0)
    as [fl Hfl].
  destruct ot; simpl;
    rewrite (py_div_ok _ _ Hd); simpl; rewrite Hfl; simpl; eauto.
Qed.

(** At the final buzzer of regulation the bounds check passes and the
    needed pace divides by zero. *)
Lemma compute_projection_at_48 (tl e : Q) :
  clock_elapsed q t = inr (tl, e) -> e == 48 ->
  call = inl (ZeroDivisionError "float division by zero").
Proof.
  intros Hc He. unfold compute_projection. rewrite Hc. simpl.
  assert (He0 : ~ e == 0) by (intro E; rewrite E in He; discriminate He).
  rewrite (py_div_ok tp e He0). simpl.
  assert (Hd : 48 - e == 0) by lra.
  destruct ot; simpl; rewrite (py_div_zero _ _ Hd); reflexivity.
Qed.

End ProjectionCall.

(** ** The clock at the final buzzer *)

(** C1: the specification asks that a clock reading of exactly 48 elapsed
    minutes be rejected by the bounds check, so that the needed pace never
    divides by zero.  At quarter 4, time ["0:00"], the code passes the
    bounds check with 48 elapsed minutes and then raises
    [ZeroDivisionError] while computing the needed pace, whatever the
    other inputs are. *)
Theorem final_buzzer_division_by_zero
    (now : string) (tp lt pt : Q) (alpha : option Q) (thr : Q)
    (b fp : bool) (bb : Q) (fta tpp : option Q) (ot : bool) (otp otpts : Q) :
  (exists tl e, clock_elapsed 4 "0:00" = inr (tl, e) /\ e == 48) /\
  compute_projection now 4 "0:00" tp lt pt alpha thr b fp bb fta tpp ot otp otpts
    = inl (ZeroDivisionError "float division by zero") /\
  compute_projection now 4 "0:00" tp lt pt alpha thr b fp bb fta tpp ot otp otpts
    <> inl (ValueError "Elapsed time out of bounds. Check quarter/time left.").
Proof.
  assert (Hc : exists tl e, clock_elapsed 4 "0:00" = inr (tl, e) /\ e == 48).
  { eexists; eexists; split; [vm_compute; reflexivity|reflexivity]. }
  split; [exact Hc|].
  destruct Hc as (tl & e & Hc & He).
  rewrite (compute_projection_at_48 now 4 "0:00" tp lt pt alpha thr b fp bb
             fta tpp ot otp otpts tl e Hc He).
  split; [reflexivity|discriminate].
Qed.

(** ** The end-to-end scenario *)

(** C2: third quarter, 6:00 left, 150 points, live total 224, pregame total
    228.5, automatic alpha, threshold 4, no bonus, free-throw parade or
    overtime: 30 minutes elapsed, alpha 0.71, pace 5.0, baseline rate
    228.5/48 (about 4.76), blended rate 0.71*5.0 + 0.29*(228.5/48) (about
    4.93), blended projection 150 + rate*18 (about 238.7), edge equal to the
    projection minus 224 (about 14.7), lean OVER. *)
Theorem end_to_end_scenario (now : string) :
  exists r,
    compute_projection now 3 "6:00" 150 224 228.5 None 4
      false false 0.25 None None false 6 10 = inr r /\
    elapsed_min r == 30 /\
    alpha_used r == 0.71 /\
    pace_ppm r == 5 /\
    py_div (pregame_total r) 48 = inr (228.5 / 48) /\
    Qabs (228.5 / 48 - 4.76) <= 0.005 /\
    blended_rate_of (alpha_used r) (pace_ppm r) (boost_of false false 0.25)
      (228.5 / 48) == 0.71 * 5 + 0.29 * (228.5 / 48) /\
    Qabs (0.71 * 5 + 0.29 * (228.5 / 48) - 4.93) <= 0.005 /\
    blended_proj r == 150 + (0.71 * 5 + 0.29 * (228.5 / 48)) * 18 /\
    Qabs (blended_proj r - 238.7) <= 0.05 /\
    edge_vs_live r == blended_proj r - 224 /\
    Qabs (edge_vs_live r - 14.7) <= 0.05 /\
    lean r = "LEAN: OVER".
Proof.
  eexists. split; [vm_compute; reflexivity|].
  repeat split; try (vm_compute; reflexivity);
    vm_compute; intro H; discriminate H.
Qed.

(** ** Alpha *)

(** C4: a supplied alpha is clamped into [0.05, 0.95] whatever its
    magnitude; without one, alpha is 0.35 + 0.012 * elapsed clamped into
    [0.35, 0.90], which never decreases when the elapsed time grows. *)
Theorem alpha_used_clamped
    (now : string) (q : Z) (t : string) (tp lt pt : Q)
    (alpha : option Q) (thr : Q) (b fp : bool) (bb : Q)
    (fta tpp : option Q) (ot : bool) (otp otpts : Q) (r : CalcResult) :
  compute_projection now q t tp lt pt alpha thr b fp bb fta tpp ot otp otpts
    = inr r ->
  match alpha with
  | Some a =>
      alpha_used r == Qmax 0.05 (Qmin 0.95 a) /\
      0.05 <= alpha_used r <= 0.95
  | None =>
      alpha_used r == Qmax 0.35 (Qmin 0.90 (0.35 + 0.012 * elapsed_min r)) /\
      0.35 <= alpha_used r <= 0.90 /\
      forall now' q' t' tp' lt' pt' thr' b' fp' bb' fta' tpp' ot' otp' otpts' r',
        compute_projection now' q' t' tp' lt' pt' None thr' b' fp' bb'
          fta' tpp' ot' otp' otpts' = inr r' ->
        elapsed_min r <= elapsed_min r' ->
        alpha_used r <= alpha_used r'
  end.
Proof.
  intro H.
  destruct (compute_projection_inv _ _ _ _ _ _ _ _ _ _ _ _ _ _ _ _ _ H)
    as (tl & fl & _ & _ & _ & Ha & _).
  destruct alpha as [a|]; rewrite Ha.
  - split; [apply clamp_spec|apply clamp_bounds; lra].
  - split; [apply clamp_spec|].
    split; [apply clamp_bounds; lra|].
    intros now' q' t' tp' lt' pt' thr' b' fp' bb' fta' tpp' ot' otp' otpts' r' H' Hle.
    destruct (compute_projection_inv _ _ _ _ _ _ _ _ _ _ _ _ _ _ _ _ _ H')
      as (tl' & fl' & _ & _ & _ & Ha' & _).
    rewrite Ha'. apply clamp_mono; lra.
Qed.

Lemma alpha_used_clamped_witness :
  exists r,
    compute_projection "2026-01-01 20:00:00" 2 "7:10" 60 224 228.5 (Some 2) 4
      true true 0.25 (Some 20) (Some 0.41) true 6 10 = inr r /\
    alpha_used r == Qmax 0.05 (Qmin 0.95 2) /\
    0.05 <= alpha_used r <= 0.95.
Proof.
  eexists. split; [vm_compute; reflexivity|].
  apply (alpha_used_clamped "2026-01-01 20:00:00" 2 "7:10" 60 224 228.5
           (Some 2) 4 true true 0.25 (Some 20) (Some 0.41) true 6 10).
  vm_compute. reflexivity.
Defined.

(** ** Reading the clock *)

Lemma string_app_assoc (a b c : string) : (a ++ b) ++ c = a ++ (b ++ c).
Proof.
  induction a as [|x a IH]; simpl; [reflexivity|]. rewrite IH. reflexivity.
Qed.

Lemma string_app_nil_r (a : string) : a ++ "" = a.
Proof.
  induction a as [|x a IH]; simpl; [reflexivity|]. rewrite IH. reflexivity.
Qed.

(** Facts about one digit, by enumeration of the ten digits. *)
Ltac ten_digits d H :=
  do 10 (destruct d as [|d]; [vm_compute; reflexivity|]);
  exfalso; lia.

Lemma digit_char_is_digit (d : nat) :
  (d < 10)%nat -> PyStr.is_digit (digit_char d) = true.
Proof. intro H. ten_digits d H. Qed.

Lemma digit_char_not_space (d : nat) :
  (d < 10)%nat -> PyStr.is_space (digit_char d) = false.
Proof. intro H. ten_digits d H. Qed.

Lemma digit_char_not_colon (d : nat) :
  (d < 10)%nat -> Ascii.eqb (digit_char d) ":" = false.
Proof. intro H. ten_digits d H. Qed.

Lemma digit_char_not_minus (d : nat) :
  (d < 10)%nat -> Ascii.eqb (digit_char d) "-" = false.
Proof. intro H. ten_digits d H. Qed.

Lemma digit_char_not_plus (d : nat) :
  (d < 10)%nat -> Ascii.eqb (digit_char d) "+" = false.
Proof. intro H. ten_digits d H. Qed.

Lemma digit_val_digit_char (d : nat) :
  (d < 10)%nat -> PyStr.digit_val (digit_char d) = Z.of_nat d.
Proof. intro H. ten_digits d H. Qed.

Lemma digit_string_app (a b : list nat) :
  digit_string (a ++ b) = digit_string a ++ digit_string b.
Proof.
  induction a as [|d a IH]; simpl; [reflexivity|]. rewrite IH. reflexivity.
Qed.

Lemma decimal_value_nonneg (ds : list nat) : (0 <= decimal_value ds)%Z.
Proof.
  induction ds as [|d r IH]; simpl; [lia|].
  assert (0 <= 10 ^ Z.of_nat (List.length r))%Z by (apply Z.pow_nonneg; lia).
  nia.
Qed.

(** The accumulating loop of [int] computes the positional value. *)
Lemma int_digits_digit_string (ds : list nat) :
  Forall (fun d => (d < 10)%nat) ds ->
  forall (acc : Z) (after_digit : bool),
    ds <> [] \/ after_digit = true ->
    PyStr.int_digits (digit_string ds) acc after_digit =
      Some (acc * 10 ^ Z.of_nat (List.length ds) + decimal_value ds)%Z.
Proof.
  induction 1 as [|d r Hd Hr IH]; intros acc after Hne.
  - destruct Hne as [Hne| ->]; [contradiction|]. simpl. f_equal. lia.
  - cbn [digit_string PyStr.int_digits].
    rewrite (digit_char_is_digit d Hd), (digit_val_digit_char d Hd).
    rewrite IH by (right; reflexivity).
    f_equal. cbn [List.length decimal_value].
    rewrite Nat2Z.inj_succ, Z.pow_succ_r by lia. ring.
Qed.

Lemma lstrip_digit_string (ds : list nat) (rest : string) :
  Forall (fun d => (d < 10)%nat) ds -> ds <> [] ->
  PyStr.lstrip (digit_string ds ++ rest) = digit_string ds ++ rest.
Proof.
  intros Hd Hne. destruct ds as [|d r]; [contradiction|].
  inversion Hd; subst. cbn [digit_string String.append PyStr.lstrip].
  rewrite digit_char_not_space by assumption. reflexivity.
Qed.

Lemma rstrip_last_not_space (s : string) (c : ascii) :
  PyStr.is_space c = false ->
  PyStr.rstrip (s ++ String c "") = s ++ String c "".
Proof.
  intro Hc. induction s as [|x s IH]; simpl.
  - rewrite Hc. reflexivity.
  - rewrite IH. destruct s; reflexivity.
Qed.

Lemma rstrip_digit_string (ds : list nat) (front : string) :
  Forall (fun d => (d < 10)%nat) ds -> ds <> [] ->
  PyStr.rstrip (front ++ digit_string ds) = front ++ digit_string ds.
Proof.
  intros Hd Hne.
  destruct (exists_last Hne) as (l & a & ->).
  rewrite digit_string_app. cbn [digit_string].
  rewrite <- string_app_assoc.
  apply rstrip_last_not_space, digit_char_not_space.
  rewrite Forall_app in Hd. destruct Hd as [_ Ha]. inversion Ha; assumption.
Qed.

Lemma strip_digit_string (ds : list nat) :
  Forall (fun d => (d < 10)%nat) ds -> ds <> [] ->
  PyStr.strip (digit_string ds) = digit_string ds.
Proof.
  intros Hd Hne. unfold PyStr.strip.
  rewrite <- (string_app_nil_r (digit_string ds)) at 1.
  rewrite lstrip_digit_string by assumption.
  rewrite string_app_nil_r.
  change (digit_string ds) with ("" ++ digit_string ds).
  apply rstrip_digit_string; assumption.
Qed.

Lemma strip_clock_string (ms ss : list nat) :
  is_digits ms -> is_digits ss ->
  PyStr.strip (clock_string ms ss) = clock_string ms ss.
Proof.
  intros [Hm1 Hm2] [Hs1 Hs2]. unfold PyStr.strip, clock_string.
  rewrite lstrip_digit_string by assumption.
  rewrite <- string_app_assoc.
  apply rstrip_digit_string; assumption.
Qed.

Lemma has_char_app (c : ascii) (a b : string) :
  has_char c (a ++ b) = has_char c a || has_char c b.
Proof.
  induction a as [|x a IH]; cbn [String.append has_char]; [reflexivity|].
  rewrite IH, orb_assoc. reflexivity.
Qed.

(** A string without the separator is one part. *)
Lemma split_no_sep (sep : ascii) (s : string) :
  has_char sep s = false -> PyStr.split sep s = [s].
Proof.
  induction s as [|x s IH]; cbn [has_char PyStr.split]; [reflexivity|].
  intro H. apply orb_false_iff in H. destruct H as [Hx Hs].
  rewrite Hx, (IH Hs). reflexivity.
Qed.

(** The first separator ends the first part. *)
Lemma split_app_sep (sep : ascii) (a rest : string) :
  has_char sep a = false ->
  PyStr.split sep (a ++ String sep rest) = a :: PyStr.split sep rest.
Proof.
  induction a as [|x a IH]; cbn [has_char String.append PyStr.split].
  - intros _. rewrite Ascii.eqb_refl. reflexivity.
  - intro H. apply orb_false_iff in H. destruct H as [Hx Ha].
    rewrite Hx, (IH Ha). reflexivity.
Qed.

Lemma digit_string_no_colon (ds : list nat) :
  Forall (fun d => (d < 10)%nat) ds -> has_char ":" (digit_string ds) = false.
Proof.
  induction 1 as [|d r Hd Hr IH]; cbn [digit_string has_char]; [reflexivity|].
  rewrite digit_char_not_colon by assumption. exact IH.
Qed.

Lemma split_clock_string (ms ss : list nat) :
  is_digits ms -> is_digits ss ->
  PyStr.split ":" (clock_string ms ss) = [digit_string ms; digit_string ss].
Proof.
  intros [_ Hm] [_ Hs]. unfold clock_string. cbn [String.append].
  rewrite split_app_sep by (apply digit_string_no_colon; exact Hm).
  rewrite split_no_sep by (apply digit_string_no_colon; exact Hs).
  reflexivity.
Qed.

Lemma int_digit_string (ds : list nat) :
  is_digits ds -> PyStr.int (digit_string ds) = inr (decimal_value ds).
Proof.
  intros [Hne Hd]. unfold PyStr.int.
  rewrite strip_digit_string by assumption.
  destruct ds as [|d r]; [contradiction|].
  cbn [digit_string]. inversion Hd; subst.
  rewrite digit_char_not_minus, digit_char_not_plus by assumption.
  cbn [fst snd].
  change (String (digit_char d) (digit_string r)) with (digit_string (d :: r)).
  rewrite int_digits_digit_string by (auto; left; discriminate).
  reflexivity.
Qed.

Lemma parse_mmss_clock_string (ms ss : list nat) :
  is_digits ms -> is_digits ss -> (decimal_value ss < 60)%Z ->
  parse_mmss (clock_string ms ss) =
    inr (inject_Z (decimal_value ms) + inject_Z (decimal_value ss) / 60).
Proof.
  intros Hm Hs H60. unfold parse_mmss.
  rewrite strip_clock_string, split_clock_string by assumption.
  rewrite !int_digit_string by assumption. cbn [bind].
  pose proof (decimal_value_nonneg ms) as Hm0.
  pose proof (decimal_value_nonneg ss) as Hs0.
  destruct (Z.ltb_spec (decimal_value ms) 0); [lia|].
  destruct (Z.ltb_spec (decimal_value ss) 0); [lia|].
  destruct (Z.geb_spec (decimal_value ss) 60); [lia|].
  reflexivity.
Qed.

(** The bounds check, for any reading that parses. *)
Lemma clock_elapsed_cases (q : Z) (t : string) (tl : Q) :
  parse_mmss t = inr tl ->
  let e := inject_Z (q - 1) * 12 + (12 - tl) in
  (clock_elapsed q t = inl out_of_bounds <-> e <= 0 \/ 48 < e) /\
  (clock_elapsed q t = inr (tl, e) <-> 0 < e <= 48).
Proof.
  intros Hp e.
  destruct (Qlt_le_dec 0 e) as [H0|H0];
    [destruct (Qlt_le_dec 48 e) as [H48|H48]|].
  - pose proof (clock_elapsed_out_of_bounds q t tl Hp (or_intror H48)) as E.
    fold e in E. rewrite E. unfold out_of_bounds.
    split; split; intro H; try reflexivity; try discriminate H.
    + right; exact H48.
    + exfalso. lra.
  - pose proof (clock_elapsed_ok q t tl Hp (conj H0 H48)) as E.
    fold e in E. rewrite E.
    split; split; intro H; try reflexivity; try discriminate H.
    + exfalso. lra.
    + split; assumption.
  - pose proof (clock_elapsed_out_of_bounds q t tl Hp (or_introl H0)) as E.
    fold e in E. rewrite E. unfold out_of_bounds.
    split; split; intro H; try reflexivity; try discriminate H.
    + left; exact H0.
    + exfalso. lra.
Qed.

(** C3: for a clock reading with [m] minutes and [s] seconds left in
    quarter [q], the elapsed time is (q - 1) * 12 + (12 - m - s/60); the
    call fails with the out-of-bounds error exactly when that value is at
    most 0 or above 48.  Quarter 1 at ["12:00"] is rejected and quarter 4 at
    ["0:00"] gives 48 exactly.  The first part is about every reading the
    parser accepts, the second about the readings written as digits, a
    colon and digits. *)
Theorem clock_elapsed_spec :
  (forall (q : Z) (t : string) (tl : Q),
      parse_mmss t = inr tl ->
      let e := inject_Z (q - 1) * 12 + (12 - tl) in
      (clock_elapsed q t = inl out_of_bounds <-> e <= 0 \/ 48 < e) /\
      (clock_elapsed q t = inr (tl, e) <-> 0 < e <= 48)) /\
  (forall (q : Z) (ms ss : list nat),
      is_digits ms -> is_digits ss -> (decimal_value ss < 60)%Z ->
      let e := spec_elapsed q (decimal_value ms) (decimal_value ss) in
      (clock_elapsed q (clock_string ms ss) = inl out_of_bounds
       <-> e <= 0 \/ 48 < e) /\
      ((exists tl el,
           clock_elapsed q (clock_string ms ss) = inr (tl, el) /\ el == e)
       <-> 0 < e <= 48)) /\
  clock_elapsed 1 "12:00" = inl out_of_bounds /\
  (exists tl el, clock_elapsed 4 "0:00" = inr (tl, el) /\ el == 48).
Proof.
  split; [exact clock_elapsed_cases|]. split; [|split].
  - intros q ms ss Hm Hs H60 e.
    pose proof (parse_mmss_clock_string ms ss Hm Hs H60) as Hp.
    set (tl := inject_Z (decimal_value ms) + inject_Z (decimal_value ss) / 60)
      in Hp.
    destruct (clock_elapsed_cases q _ tl Hp) as [Hout Hin].
    assert (He : inject_Z (q - 1) * 12 + (12 - tl) == e).
    { unfold e, spec_elapsed, tl. ring. }
    cbv zeta in Hout, Hin. rewrite He in Hout.
    assert (Hb : 0 < inject_Z (q - 1) * 12 + (12 - tl) <= 48 <-> 0 < e <= 48)
      by (rewrite He; reflexivity).
    rewrite Hb in Hin.
    split; [exact Hout|]. split.
    + intros (tl' & el & Hc & Hel).
      destruct (Qlt_le_dec 0 e) as [H0|H0];
        [destruct (Qlt_le_dec 48 e) as [H48|H48]|].
      * rewrite (proj2 Hout (or_intror H48)) in Hc. discriminate Hc.
      * split; assumption.
      * rewrite (proj2 Hout (or_introl H0)) in Hc. discriminate Hc.
    + intro Hin'. exists tl, (inject_Z (q - 1) * 12 + (12 - tl)).
      split; [apply Hin; exact Hin'|exact He].
  - vm_compute. reflexivity.
  - eexists; eexists; split; [vm_compute; reflexivity|reflexivity].
Qed.

Lemma clock_elapsed_spec_witness :
  is_digits [7]%nat /\ is_digits [1; 0]%nat /\
  (decimal_value [1; 0]%nat < 60)%Z /\
  exists tl el,
    clock_elapsed 2 "7:10" = inr (tl, el) /\ el == spec_elapsed 2 7 10.
Proof.
  assert (H7 : is_digits [7]%nat).
  { split; [discriminate|repeat constructor; lia]. }
  assert (H10 : is_digits [1; 0]%nat).
  { split; [discriminate|repeat constructor; lia]. }
  assert (H60 : (decimal_value [1; 0]%nat < 60)%Z) by (vm_compute; reflexivity).
  repeat split; try apply H7; try apply H10; try exact H60.
  apply (proj2 (proj1 (proj2 clock_elapsed_spec) 2%Z [7]%nat [1; 0]%nat
                  H7 H10 H60)).
  split; vm_compute; [reflexivity|discriminate].
Defined.

(** ** Strings: case and whitespace *)

Lemma is_space_upper_char (c : ascii) :
  PyStr.is_space (PyStr.upper_char c) = PyStr.is_space c.
Proof.
  destruct c as [[] [] [] [] [] [] [] []]; reflexivity.
Qed.

Lemma lstrip_upper (s : string) :
  PyStr.lstrip (PyStr.upper s) = PyStr.upper (PyStr.lstrip s).
Proof.
  induction s as [|c s IH]; [reflexivity|].
  cbn [PyStr.upper PyStr.lstrip]. rewrite is_space_upper_char.
  destruct (PyStr.is_space c); [exact IH|reflexivity].
Qed.

Lemma rstrip_upper (s : string) :
  PyStr.rstrip (PyStr.upper s) = PyStr.upper (PyStr.rstrip s).
Proof.
  induction s as [|c s IH]; [reflexivity|].
  cbn [PyStr.upper PyStr.rstrip]. rewrite IH, is_space_upper_char.
  destruct (PyStr.rstrip s) as [|x r]; cbn [PyStr.upper].
  - destruct (PyStr.is_space c); reflexivity.
  - reflexivity.
Qed.

(** Upper-casing and stripping commute. *)
Lemma strip_upper (s : string) :
  PyStr.strip (PyStr.upper s) = PyStr.upper (PyStr.strip s).
Proof.
  unfold PyStr.strip. rewrite lstrip_upper, rstrip_upper. reflexivity.
Qed.

Lemma side_of_some (s : string) (sd : Side) :
  side_of s = Some sd <-> PyStr.strip (PyStr.upper s) = side_text sd.
Proof.
  unfold side_of. rewrite strip_upper.
  destruct (String.eqb_spec (PyStr.upper (PyStr.strip s)) "OVER") as [E|E].
  - rewrite E. destruct sd; simpl; split; intro H;
      try reflexivity; try discriminate H.
  - destruct (String.eqb_spec (PyStr.upper (PyStr.strip s)) "UNDER") as [E'|E'].
    + rewrite E'. destruct sd; simpl; split; intro H;
        try reflexivity; try discriminate H.
    + split; intro H; [discriminate H|].
      destruct sd; simpl in H; congruence.
Qed.

Lemma side_of_none (s : string) :
  side_of s = None <->
  (String.eqb (PyStr.strip (PyStr.upper s)) "UNDER"
   || String.eqb (PyStr.strip (PyStr.upper s)) "OVER") = false.
Proof.
  unfold side_of. rewrite strip_upper.
  destruct (String.eqb (PyStr.upper (PyStr.strip s)) "OVER");
    destruct (String.eqb (PyStr.upper (PyStr.strip s)) "UNDER");
    simpl; split; intro H; try reflexivity; discriminate H.
Qed.

(** ** Substrings *)

Lemma startswith_iff (a s : string) :
  PyStr.startswith a s = true <-> exists post, s = a ++ post.
Proof.
  revert s. induction a as [|x a IH]; intro s; simpl.
  - split; [intros _; exists s; reflexivity|reflexivity].
  - destruct s as [|y s].
    + split; [discriminate|intros [post H]; discriminate H].
    + destruct (Ascii.eqb_spec x y) as [->|Hne]; simpl.
      * rewrite IH. split; intros [post H]; exists post.
        -- rewrite H. reflexivity.
        -- injection H as H. exact H.
      * split; [discriminate|].
        intros [post H]. injection H as H1 H2. congruence.
Qed.

Lemma contains_iff (needle s : string) :
  PyStr.contains needle s = true <-> Contains needle s.
Proof.
  unfold Contains. induction s as [|c s IH].
  - cbn [PyStr.contains]. rewrite orb_false_r, startswith_iff. split.
    + intros [post H]. exists "", post. exact H.
    + intros (pre & post & H). destruct pre as [|x pre]; [|discriminate H].
      exists post. exact H.
  - cbn [PyStr.contains]. rewrite orb_true_iff, startswith_iff, IH. split.
    + intros [[post H]|(pre & post & H)].
      * exists "", post. exact H.
      * exists (String c pre), post. rewrite H. reflexivity.
    + intros (pre & post & H). destruct pre as [|x pre].
      * left. exists post. exact H.
      * right. injection H as _ H. exists pre, post. exact H.
Qed.

Lemma mentions_any_iff (needles : list string) (f : string) :
  mentions_any needles f = true <-> exists n, In n needles /\ Contains n f.
Proof.
  unfold mentions_any. rewrite existsb_exists.
  split; intros (n & Hin & H); exists n; split; auto; apply contains_iff; exact H.
Qed.

Lemma is_bad_mentions (f : string) :
  is_bad f = mentions_any ["HIGH_RISK"; "FT_PARADE"; "HIGH_FT_RATE"] f.
Proof.
  unfold is_bad, mentions_any. cbn [existsb].
  rewrite orb_false_r, orb_assoc. reflexivity.
Qed.

Lemma is_warn_mentions (f : string) :
  is_warn f = mentions_any ["BONUS"; "ELEVATED_FT_RATE"; "3P_"; "OT_ON"] f.
Proof.
  unfold is_warn, mentions_any. cbn [existsb].
  rewrite orb_false_r, !orb_assoc. reflexivity.
Qed.

Lemma sum_bool_acc (p : string -> bool) (flags : list string) (acc : Z) :
  fold_left (fun a f => (a + if p f then 1 else 0)%Z) flags acc =
    (acc + Z.of_nat (count_flags p flags))%Z.
Proof.
  revert acc. unfold count_flags.
  induction flags as [|f r IH]; intro acc; simpl; [lia|].
  rewrite IH. destruct (p f); simpl List.length; lia.
Qed.

Lemma sum_bool_count (p : string -> bool) (flags : list string) :
  sum_bool p flags = Z.of_nat (count_flags p flags).
Proof.
  unfold sum_bool. rewrite sum_bool_acc. lia.
Qed.

Lemma count_flags_ext (p p' : string -> bool) (flags : list string) :
  (forall f, p f = p' f) -> count_flags p flags = count_flags p' flags.
Proof.
  intro H. unfold count_flags. rewrite (filter_ext p p' H). reflexivity.
Qed.

Lemma sum_bool_bad (flags : list string) :
  sum_bool is_bad flags = Z.of_nat (spec_badCount flags).
Proof.
  rewrite sum_bool_count. unfold spec_badCount.
  rewrite (count_flags_ext _ _ flags is_bad_mentions). reflexivity.
Qed.

Lemma sum_bool_warn (flags : list string) :
  sum_bool is_warn flags = Z.of_nat (spec_warnCount flags).
Proof.
  rewrite sum_bool_count. unfold spec_warnCount.
  rewrite (count_flags_ext _ _ flags is_warn_mentions). reflexivity.
Qed.

(** ** Decimal odds *)

Lemma dec_from_american_zero (a : Q) :
  a == 0 -> dec_from_american a = inl (ValueError "American odds cannot be 0.").
Proof.
  intro H. unfold dec_from_american. apply Qeq_bool_iff in H. rewrite H.
  reflexivity.
Qed.

Lemma dec_from_american_ok (a : Q) :
  ~ a == 0 ->
  exists d, dec_from_american a = inr d /\ d == spec_decimal a /\ 1 < d.
Proof.
  intro Ha. unfold dec_from_american, spec_decimal.
  rewrite (proj2 (Qeq_bool_false_iff a 0) Ha).
  destruct (Qlt_le_dec a 0) as [Hneg|Hpos].
  - rewrite (proj2 (Qlt_bool_iff a 0) Hneg).
    assert (Habs : 0 < Qabs a).
    { rewrite Qabs_neg by lra. lra. }
    assert (Hne : ~ Qabs a == 0) by lra.
    rewrite (py_div_ok 100 (Qabs a) Hne). simpl.
    exists (1 + 100 / Qabs a). repeat split; try reflexivity.
    assert (0 < 100 / Qabs a) by (apply Qlt_shift_div_l; lra).
    lra.
  - rewrite (proj2 (Qlt_bool_false_iff a 0) Hpos).
    assert (Hne : ~ 100 == 0) by (intro E; discriminate E).
    rewrite (py_div_ok a 100 Hne). simpl.
    exists (1 + a / 100). repeat split; try reflexivity.
    assert (0 < a) by (apply Qle_lt_or_eq in Hpos; destruct Hpos as [H|H];
                        [exact H|exfalso; apply Ha; symmetry; exact H]).
    assert (0 < a / 100) by (apply Qlt_shift_div_l; lra).
    lra.
Qed.

(** ** Inversion of the hedge *)

Section HedgeCall.

Variables (side : string) (ml ms mo hl ho lt : Q) (fl : list string).

Lemma hedge_equalize_bad_side :
  side_of side = None ->
  hedge_equalize side ml ms mo hl ho lt fl =
    inl (ValueError "my_side must be UNDER or OVER.").
Proof.
  intro H. apply side_of_none in H. unfold hedge_equalize.
  rewrite H. reflexivity.
Qed.

Lemma hedge_equalize_side (sd : Side) :
  side_of side = Some sd ->
  hedge_equalize side ml ms mo hl ho lt fl =
    hedge_equalize (side_text sd) ml ms mo hl ho lt fl.
Proof.
  intro H. apply side_of_some in H. unfold hedge_equalize. rewrite H.
  destruct sd; reflexivity.
Qed.

Lemma hedge_equalize_zero_odds (sd : Side) :
  side_of side = Some sd -> mo == 0 \/ ho == 0 ->
  hedge_equalize side ml ms mo hl ho lt fl =
    inl (ValueError "American odds cannot be 0.").
Proof.
  intros Hs Hz. rewrite (hedge_equalize_side sd Hs).
  assert (Hcheck : forall k : Py HedgeResult,
             (if negb (String.eqb (PyStr.strip (PyStr.upper (side_text sd))) "UNDER"
                       || String.eqb (PyStr.strip (PyStr.upper (side_text sd))) "OVER")
              then raise (ValueError "my_side must be UNDER or OVER.")
              else k) = k) by (intro k; destruct sd; reflexivity).
  unfold hedge_equalize. rewrite Hcheck.
  destruct (Qeq_dec mo 0) as [Hm|Hm].
  - rewrite (dec_from_american_zero mo Hm). reflexivity.
  - destruct (dec_from_american_ok mo Hm) as (d & -> & _).
    destruct Hz as [Hz|Hz]; [contradiction|].
    rewrite (dec_from_american_zero ho Hz). reflexivity.
Qed.

(** With a valid side and non-zero odds the call returns, and this is
    what it returns. *)
Lemma hedge_equalize_ok (sd : Side) :
  side_of side = Some sd -> ~ mo == 0 -> ~ ho == 0 ->
  exists dec0 dech r,
    dec_from_american mo = inr dec0 /\ dec0 == spec_decimal mo /\ 1 < dec0 /\
    dec_from_american ho = inr dech /\ dech == spec_decimal ho /\ 1 < dech /\
    hedge_equalize side ml ms mo hl ho lt fl = inr r /\
    suggestion r =
      suggestion_of (clv_of (side_text sd) ml lt)
        (sum_bool is_bad fl) (sum_bool is_warn fl) /\
    equalized_hedge_stake r = ms * dec0 / dech /\
    middle_note r = middle_note_of (side_text sd) ml hl /\
    worst_case_profit r =
      py_min (ms * (dec0 - 1) + - (ms * dec0 / dech))
             (- ms + ms * dec0 / dech * (dech - 1)) /\
    best_case_profit r =
      ms * (dec0 - 1) + ms * dec0 / dech * (dech - 1).
Proof.
  intros Hs Hm Hh. rewrite (hedge_equalize_side sd Hs).
  destruct (dec_from_american_ok mo Hm) as (dec0 & E0 & S0 & G0).
  destruct (dec_from_american_ok ho Hh) as (dech & Eh & Sh & Gh).
  assert (Hne : ~ dech == 0) by lra.
  exists dec0, dech.
  assert (Hcheck : forall k : Py HedgeResult,
             (if negb (String.eqb (PyStr.strip (PyStr.upper (side_text sd))) "UNDER"
                       || String.eqb (PyStr.strip (PyStr.upper (side_text sd))) "OVER")
              then raise (ValueError "my_side must be UNDER or OVER.")
              else k) = k) by (intro k; destruct sd; reflexivity).
  assert (Hn : PyStr.strip (PyStr.upper (side_text sd)) = side_text sd)
    by (destruct sd; reflexivity).
  unfold hedge_equalize. rewrite Hcheck, Hn, E0, Eh. cbn [bind].
  rewrite (py_div_ok _ _ Hne). cbn [bind].
  eexists. repeat split; try eassumption; reflexivity.
Qed.

End HedgeCall.

(** ** Validation of the hedge inputs *)

(** C5: a zero American odds value, or a side that is neither OVER nor
    UNDER, always makes [hedge_equalize] raise a [ValueError]; no result is
    produced. *)
Theorem hedge_validation_errors
    (side : string) (ml ms mo hl ho lt : Q) (fl : list string) :
  mo == 0 \/ ho == 0 \/ side_of side = None ->
  hedge_equalize side ml ms mo hl ho lt fl =
    inl (ValueError
           match side_of side with
           | None => "my_side must be UNDER or OVER."
           | Some _ => "American odds cannot be 0."
           end) /\
  forall r, hedge_equalize side ml ms mo hl ho lt fl <> inr r.
Proof.
  intro H.
  assert (E : hedge_equalize side ml ms mo hl ho lt fl =
              inl (ValueError
                     match side_of side with
                     | None => "my_side must be UNDER or OVER."
                     | Some _ => "American odds cannot be 0."
                     end)).
  { destruct (side_of side) as [sd|] eqn:Hs.
    - apply (hedge_equalize_zero_odds side ml ms mo hl ho lt fl sd Hs).
      destruct H as [H|[H|H]]; [left; exact H|right; exact H|discriminate H].
    - apply hedge_equalize_bad_side. exact Hs. }
  split; [exact E|]. intros r Hr. rewrite E in Hr. discriminate Hr.
Qed.

Lemma hedge_validation_errors_witness :
  (-110 == 0 \/ 0 == 0 \/ side_of "UNDER" = None) /\
  hedge_equalize "UNDER" 228.5 100 (-110) 225.5 0 222 ["FT_PARADE"] =
    inl (ValueError "American odds cannot be 0.").
Proof.
  assert (H : -110 == 0 \/ 0 == 0 \/ side_of "UNDER" = None)
    by (right; left; reflexivity).
  split; [exact H|].
  exact (proj1 (hedge_validation_errors "UNDER" 228.5 100 (-110) 225.5 0 222
                  ["FT_PARADE"] H)).
Defined.

(** ** The equalised stake *)

(** C9: for a valid side and non-zero odds, the hedge stake is
    myStake * dec0 / dech, with which the profit when only the original bet
    wins equals the profit when only the hedge wins; the worst-case profit
    is the minimum of these two equal values and equals both. *)
Theorem equalized_outcomes
    (side : string) (sd : Side) (ml ms mo hl ho lt : Q) (fl : list string) :
  side_of side = Some sd -> ~ mo == 0 -> ~ ho == 0 ->
  exists r,
    hedge_equalize side ml ms mo hl ho lt fl = inr r /\
    let dec0 := spec_decimal mo in
    let dech := spec_decimal ho in
    let hedgeStake := equalized_hedge_stake r in
    hedgeStake == ms * dec0 / dech /\
    ms * (dec0 - 1) - hedgeStake == hedgeStake * (dech - 1) - ms /\
    worst_case_profit r == ms * (dec0 - 1) - hedgeStake /\
    worst_case_profit r == hedgeStake * (dech - 1) - ms.
Proof.
  intros Hs Hm Hh.
  destruct (hedge_equalize_ok side ml ms mo hl ho lt fl sd Hs Hm Hh)
    as (dec0 & dech & r & _ & S0 & _ & _ & Sh & Gh & Hr & _ & Hst & _ & Hw & _).
  exists r. split; [exact Hr|]. cbv zeta.
  rewrite Hst, Hw, py_min_spec. rewrite <- S0, <- Sh.
  assert (Hne : ~ dech == 0) by lra.
  assert (Heq : ms * (dec0 - 1) - ms * dec0 / dech
                == ms * dec0 / dech * (dech - 1) - ms) by (field; exact Hne).
  split; [reflexivity|]. split; [exact Heq|].
  assert (Hmin : Qmin (ms * (dec0 - 1) + - (ms * dec0 / dech))
                      (- ms + ms * dec0 / dech * (dech - 1))
                 == ms * (dec0 - 1) - ms * dec0 / dech).
  { rewrite Q.min_l; [reflexivity|]. lra. }
  split; [exact Hmin|]. rewrite Hmin. exact Heq.
Qed.

Lemma equalized_outcomes_witness :
  side_of " over " = Some OVER /\ ~ -110 == 0 /\ ~ 150 == 0 /\
  exists r,
    hedge_equalize " over " 228.5 100 (-110) 230 150 222 [] = inr r /\
    equalized_hedge_stake r == 100 * spec_decimal (-110) / spec_decimal 150 /\
    100 * (spec_decimal (-110) - 1) - equalized_hedge_stake r
      == equalized_hedge_stake r * (spec_decimal 150 - 1) - 100 /\
    worst_case_profit r
      == 100 * (spec_decimal (-110) - 1) - equalized_hedge_stake r /\
    worst_case_profit r
      == equalized_hedge_stake r * (spec_decimal 150 - 1) - 100.
Proof.
  assert (H1 : side_of " over " = Some OVER) by reflexivity.
  assert (H2 : ~ -110 == 0) by (intro E; discriminate E).
  assert (H3 : ~ 150 == 0) by (intro E; discriminate E).
  repeat (split; [assumption|]).
  exact (equalized_outcomes " over " OVER 228.5 100 (-110) 230 150 222 []
           H1 H2 H3).
Defined.

(** ** The suggestion table *)

Lemma spec_suggestion_functional (clv : Q) (bad warn : nat) (s1 s2 : Suggestion) :
  spec_suggestion clv bad warn s1 -> spec_suggestion clv bad warn s2 -> s1 = s2.
Proof.
  intros H1 H2. inversion H1; inversion H2; subst; try reflexivity;
    exfalso; tauto.
Qed.

Lemma clv_of_side_text (sd : Side) (ml lt : Q) :
  clv_of (side_text sd) ml lt = spec_clv sd ml lt.
Proof. destruct sd; reflexivity. Qed.

Lemma suggestion_of_table (clv : Q) (bad warn : nat) :
  exists sg,
    suggestion_of clv (Z.of_nat bad) (Z.of_nat warn) = suggestion_text sg /\
    spec_suggestion clv bad warn sg.
Proof.
  unfold suggestion_of.
  destruct (Qle_bool 6 clv) eqn:E6; qbool.
  - destruct (Z.leb_spec 1 (Z.of_nat bad)); simpl.
    + exists SMALL_HEDGE. split; [reflexivity|].
      apply row_small_hedge; [exact E6|left; lia].
    + destruct (Z.leb_spec 2 (Z.of_nat warn)); simpl.
      * exists SMALL_HEDGE. split; [reflexivity|].
        apply row_small_hedge; [exact E6|right; lia].
      * exists HOLD. split; [reflexivity|].
        apply row_hold; [exact E6|lia].
  - simpl. destruct (Qle_bool 3 clv) eqn:E3; qbool.
    + destruct (Z.leb_spec 1 (Z.of_nat bad)); simpl.
      * exists WATCH. split; [reflexivity|].
        apply row_watch; [lra|exact E3|lia].
      * exists NO_SIGNAL. split; [reflexivity|].
        apply row_no_signal; [lra|]. intros [_ Hb]. lia.
    + simpl. exists NO_SIGNAL. split; [reflexivity|].
      apply row_no_signal; [lra|]. intros [Hc _]. lra.
Qed.

(** C6: for a valid side and non-zero odds, the suggestion is the first
    matching row of the table over the closing-line value of the side, the
    number of flags that contain HIGH_RISK, FT_PARADE or HIGH_FT_RATE, and
    the number of flags that contain BONUS, ELEVATED_FT_RATE, 3P_ or
    OT_ON. *)
Theorem suggestion_table
    (side : string) (sd : Side) (ml ms mo hl ho lt : Q) (fl : list string) :
  side_of side = Some sd -> ~ mo == 0 -> ~ ho == 0 ->
  exists r sg,
    hedge_equalize side ml ms mo hl ho lt fl = inr r /\
    suggestion r = suggestion_text sg /\
    spec_suggestion (spec_clv sd ml lt) (spec_badCount fl) (spec_warnCount fl) sg /\
    forall sg',
      spec_suggestion (spec_clv sd ml lt) (spec_badCount fl) (spec_warnCount fl) sg' ->
      sg' = sg.
Proof.
  intros Hs Hm Hh.
  destruct (hedge_equalize_ok side ml ms mo hl ho lt fl sd Hs Hm Hh)
    as (dec0 & dech & r & _ & _ & _ & _ & _ & _ & Hr & Hsg & _).
  rewrite clv_of_side_text, sum_bool_bad, sum_bool_warn in Hsg.
  destruct (suggestion_of_table (spec_clv sd ml lt) (spec_badCount fl)
              (spec_warnCount fl)) as (sg & Ht & Hrow).
  exists r, sg. split; [exact Hr|]. split; [congruence|].
  split; [exact Hrow|].
  intros sg' H'. exact (spec_suggestion_functional _ _ _ _ _ H' Hrow).
Qed.

Lemma suggestion_table_witness :
  side_of " under" = Some UNDER /\ ~ -110 == 0 /\ ~ -110 == 0 /\
  exists r sg,
    hedge_equalize " under" 228.5 100 (-110) 225.5 (-110) 222
      ["EARLY_BONUS_HIGH_RISK"] = inr r /\
    suggestion r = suggestion_text sg /\
    spec_suggestion (spec_clv UNDER 228.5 222)
      (spec_badCount ["EARLY_BONUS_HIGH_RISK"])
      (spec_warnCount ["EARLY_BONUS_HIGH_RISK"]) sg /\
    forall sg',
      spec_suggestion (spec_clv UNDER 228.5 222)
        (spec_badCount ["EARLY_BONUS_HIGH_RISK"])
        (spec_warnCount ["EARLY_BONUS_HIGH_RISK"]) sg' ->
      sg' = sg.
Proof.
  assert (H1 : side_of " under" = Some UNDER) by reflexivity.
  assert (H2 : ~ -110 == 0) by (intro E; discriminate E).
  repeat (split; [assumption|]).
  exact (suggestion_table " under" UNDER 228.5 100 (-110) 225.5 (-110) 222
           ["EARLY_BONUS_HIGH_RISK"] H1 H2 H2).
Defined.

(** ** The middle *)

Lemma reports_middle_text (lo hi : Q) : reports_middle (middle_text lo hi).
Proof. reflexivity. Qed.

Lemma middle_note_of_under (ml hl : Q) :
  (hl < ml -> middle_note_of "UNDER" ml hl = middle_text hl ml) /\
  (~ hl < ml ->
   middle_note_of "UNDER" ml hl =
     "No classic middle (hedge line not below your under line).").
Proof.
  unfold middle_note_of. cbn [String.eqb Ascii.eqb Bool.eqb andb].
  destruct (Qlt_bool hl ml) eqn:E; qbool; split; intro H;
    try reflexivity; exfalso; lra.
Qed.

Lemma middle_note_of_over (ml hl : Q) :
  (ml < hl -> middle_note_of "OVER" ml hl = middle_text ml hl) /\
  (~ ml < hl ->
   middle_note_of "OVER" ml hl =
     "No classic middle (hedge line not above your over line).").
Proof.
  unfold middle_note_of. cbn [String.eqb Ascii.eqb Bool.eqb andb].
  destruct (Qlt_bool ml hl) eqn:E; qbool; split; intro H;
    try reflexivity; exfalso; lra.
Qed.

(** C7: for a valid side and non-zero odds, side UNDER reports the middle
    from the hedge line to the bet line exactly when the hedge line is
    below the bet line, side OVER reports the middle from the bet line to
    the hedge line exactly when the hedge line is above the bet line, and
    no classic middle is reported otherwise.  UNDER with line 228.5 and
    hedge line 225.5 reports 225.5 to 228.5; hedge line 230 reports no
    middle. *)
Theorem middle_detection :
  (forall (side : string) (sd : Side) (ml ms mo hl ho lt : Q) (fl : list string),
      side_of side = Some sd -> ~ mo == 0 -> ~ ho == 0 ->
      exists r,
        hedge_equalize side ml ms mo hl ho lt fl = inr r /\
        match sd with
        | UNDER =>
            (reports_middle (middle_note r) <-> hl < ml) /\
            (hl < ml -> middle_note r = middle_text hl ml) /\
            (~ hl < ml -> reports_no_middle (middle_note r))
        | OVER =>
            (reports_middle (middle_note r) <-> ml < hl) /\
            (ml < hl -> middle_note r = middle_text ml hl) /\
            (~ ml < hl -> reports_no_middle (middle_note r))
        end) /\
  (exists r,
      hedge_equalize "UNDER" 228.5 100 (-110) 225.5 (-110) 224 [] = inr r /\
      middle_note r = "Middle range (both win): 225.5 to 228.5 (excluding pushes).") /\
  (exists r,
      hedge_equalize "UNDER" 228.5 100 (-110) 230 (-110) 224 [] = inr r /\
      reports_no_middle (middle_note r) /\ ~ reports_middle (middle_note r)).
Proof.
  split; [|split].
  - intros side sd ml ms mo hl ho lt fl Hs Hm Hh.
    destruct (hedge_equalize_ok side ml ms mo hl ho lt fl sd Hs Hm Hh)
      as (dec0 & dech & r & _ & _ & _ & _ & _ & _ & Hr & _ & _ & Hn & _).
    exists r. split; [exact Hr|]. rewrite Hn.
    destruct sd; cbn [side_text].
    + destruct (middle_note_of_over ml hl) as [Hy Hno].
      destruct (Qlt_le_dec ml hl) as [Hlt|Hge].
      * rewrite (Hy Hlt).
        repeat split; try reflexivity; try (intros; exact Hlt);
          try (intros; apply reports_middle_text).
        intro Hc. exfalso. lra.
      * assert (Hn' : ~ ml < hl) by lra. rewrite (Hno Hn').
        repeat split; try reflexivity; intro Hc; try discriminate Hc;
          exfalso; lra.
    + destruct (middle_note_of_under ml hl) as [Hy Hno].
      destruct (Qlt_le_dec hl ml) as [Hlt|Hge].
      * rewrite (Hy Hlt).
        repeat split; try reflexivity; try (intros; exact Hlt);
          try (intros; apply reports_middle_text).
        intro Hc. exfalso. lra.
      * assert (Hn' : ~ hl < ml) by lra. rewrite (Hno Hn').
        repeat split; try reflexivity; intro Hc; try discriminate Hc;
          exfalso; lra.
  - eexists. split; [vm_compute; reflexivity|reflexivity].
  - eexists. split; [vm_compute; reflexivity|].
    split; [reflexivity|intro Hc; discriminate Hc].
Qed.

Lemma middle_detection_witness :
  side_of "over" = Some OVER /\ ~ -110 == 0 /\ ~ 150 == 0 /\
  exists r,
    hedge_equalize "over" 228.5 100 (-110) 230 150 222 [] = inr r /\
    (reports_middle (middle_note r) <-> 228.5 < 230) /\
    (228.5 < 230 -> middle_note r = middle_text 228.5 230) /\
    (~ 228.5 < 230 -> reports_no_middle (middle_note r)).
Proof.
  assert (H1 : side_of "over" = Some OVER) by reflexivity.
  assert (H2 : ~ -110 == 0) by (intro E; discriminate E).
  assert (H3 : ~ 150 == 0) by (intro E; discriminate E).
  repeat (split; [assumption|]).
  exact (proj1 middle_detection "over" OVER 228.5 100 (-110) 230 150 222 []
           H1 H2 H3).
Defined.

(** ** The side argument *)

(** C10: the side is normalised before it is validated.  A string whose
    stripped, upper-cased form is OVER or UNDER is accepted and the call
    behaves as with that form; the side error is raised exactly for the
    strings that normalise to neither. *)
Theorem side_normalised :
  (forall (side : string) (ml ms mo hl ho lt : Q) (fl : list string),
      (forall sd,
          side_of side = Some sd -> ~ mo == 0 -> ~ ho == 0 ->
          PyStr.strip (PyStr.upper side) = side_text sd /\
          exists r,
            hedge_equalize side ml ms mo hl ho lt fl = inr r /\
            hedge_equalize (side_text sd) ml ms mo hl ho lt fl = inr r) /\
      (side_of side = None <->
       hedge_equalize side ml ms mo hl ho lt fl =
         inl (ValueError "my_side must be UNDER or OVER."))) /\
  side_of "under" = Some UNDER /\
  side_of " over " = Some OVER /\
  (exists r,
      hedge_equalize " over " 228.5 100 (-110) 230 150 224 [] = inr r /\
      hedge_equalize "OVER" 228.5 100 (-110) 230 150 224 [] = inr r).
Proof.
  split; [|split; [reflexivity|split; [reflexivity|]]].
  - intros side ml ms mo hl ho lt fl. split.
    + intros sd Hs Hm Hh. split; [apply side_of_some; exact Hs|].
      destruct (hedge_equalize_ok side ml ms mo hl ho lt fl sd Hs Hm Hh)
        as (dec0 & dech & r & _ & _ & _ & _ & _ & _ & Hr & _).
      exists r. split; [exact Hr|].
      rewrite <- (hedge_equalize_side side ml ms mo hl ho lt fl sd Hs).
      exact Hr.
    + split; [apply hedge_equalize_bad_side|].
      intro H. destruct (side_of side) as [sd|] eqn:Hs; [|reflexivity].
      exfalso.
      destruct (Qeq_dec mo 0) as [Hm|Hm];
        [|destruct (Qeq_dec ho 0) as [Hh|Hh]].
      * rewrite (hedge_equalize_zero_odds side ml ms mo hl ho lt fl sd Hs
                   (or_introl Hm)) in H.
        discriminate H.
      * rewrite (hedge_equalize_zero_odds side ml ms mo hl ho lt fl sd Hs
                   (or_intror Hh)) in H.
        discriminate H.
      * destruct (hedge_equalize_ok side ml ms mo hl ho lt fl sd Hs Hm Hh)
          as (dec0 & dech & r & _ & _ & _ & _ & _ & _ & Hr & _).
        rewrite Hr in H. discriminate H.
  - eexists. split; vm_compute; reflexivity.
Qed.

Lemma side_normalised_witness :
  side_of "Under " = Some UNDER /\ ~ -110 == 0 /\ ~ 120 == 0 /\
  PyStr.strip (PyStr.upper "Under ") = "UNDER" /\
  exists r,
    hedge_equalize "Under " 228.5 100 (-110) 225.5 120 224 ["FT_PARADE"] = inr r /\
    hedge_equalize "UNDER" 228.5 100 (-110) 225.5 120 224 ["FT_PARADE"] = inr r.
Proof.
  assert (H1 : side_of "Under " = Some UNDER) by reflexivity.
  assert (H2 : ~ -110 == 0) by (intro E; discriminate E).
  assert (H3 : ~ 120 == 0) by (intro E; discriminate E).
  repeat (split; [assumption|]).
  exact (proj1 (proj1 side_normalised "Under " 228.5 100 (-110) 225.5 120 224
                  ["FT_PARADE"]) UNDER H1 H2 H3).
Defined.

(** ** Flags *)

Lemma spec_labels_sorted (q : Z) (tl e : Q) (b fp : bool)
    (fta tpp : option Q) (ot : bool) :
  StronglySorted detected_before (spec_labels q tl e b fp fta tpp ot).
Proof.
  unfold spec_labels, spec_bonus_labels, spec_parade_labels,
    spec_ft_rate_labels, spec_three_point_labels, spec_overtime_labels.
  destruct (b && (q <=? 3)%Z && Qlt_bool 6 tl), b, fp, ot;
    destruct fta as [a|];
    try destruct (Qle_bool 1.10 (a / e));
    try destruct (Qle_bool 0.85 (a / e));
    destruct tpp as [p|];
    try destruct (Qle_bool 0.42 p);
    try destruct (Qle_bool p 0.31);
    cbn [app];
    repeat (constructor; unfold detected_before; cbn; try lia).
Qed.

(** Labels in strict detection order carry pairwise distinct categories. *)
Lemma sorted_labels_nodup (labels : list FlagLabel) :
  StronglySorted detected_before labels ->
  NoDup (map label_category labels).
Proof.
  induction 1 as [|l r Hs IH Hall]; cbn [map]; constructor; [|exact IH].
  intro Hin. apply in_map_iff in Hin. destruct Hin as (l' & Hc & Hl').
  rewrite Forall_forall in Hall. specialize (Hall l' Hl').
  unfold detected_before in Hall. rewrite Hc in Hall. lia.
Qed.

Lemma spec_labels_ft_rate (q : Z) (tl e : Q) (b fp : bool)
    (fta tpp : option Q) (ot : bool) :
  filter is_ft_rate (spec_labels q tl e b fp fta tpp ot)
    = spec_ft_rate_labels fta e.
Proof.
  unfold spec_labels, spec_bonus_labels, spec_parade_labels,
    spec_ft_rate_labels, spec_three_point_labels, spec_overtime_labels.
  destruct (b && (q <=? 3)%Z && Qlt_bool 6 tl), b, fp, ot;
    destruct fta as [a|];
    try destruct (Qle_bool 1.10 (a / e));
    try destruct (Qle_bool 0.85 (a / e));
    destruct tpp as [p|];
    try destruct (Qle_bool 0.42 p);
    try destruct (Qle_bool p 0.31);
    reflexivity.
Qed.

Lemma spec_ft_rate_labels_some (a e : Q) :
  exists l,
    spec_ft_rate_labels (Some a) e = [l] /\
    (l = HIGH_FT_RATE <-> 1.10 <= a / e) /\
    (l = ELEVATED_FT_RATE <-> 0.85 <= a / e /\ a / e < 1.10) /\
    (l = FT_RATE_OK <-> a / e < 0.85).
Proof.
  unfold spec_ft_rate_labels.
  destruct (Qle_bool 1.10 (a / e)) eqn:E1;
    [|destruct (Qle_bool 0.85 (a / e)) eqn:E2]; qbool.
  - exists HIGH_FT_RATE. split; [reflexivity|].
    intuition (try discriminate; lra).
  - exists ELEVATED_FT_RATE. split; [reflexivity|].
    intuition (try discriminate; lra).
  - exists FT_RATE_OK. split; [reflexivity|].
    intuition (try discriminate; lra).
Qed.

(** The list built by the flag block carries the labels of the detection
    rules, in their order. *)
Lemma projection_flags_labels (q : Z) (tl e : Q) (b fp : bool)
    (fta tpp : option Q) (ot : bool) (otp otpts : Q) (fl : list string) :
  projection_flags q tl e b fp fta tpp ot otp otpts = inr fl ->
  map flag_label fl = map Some (spec_labels q tl e b fp fta tpp ot).
Proof.
  unfold projection_flags, spec_labels, spec_bonus_labels, spec_parade_labels,
    spec_ft_rate_labels, spec_three_point_labels, spec_overtime_labels, append.
  intro H.
  destruct fta as [a|].
  - apply bind_inr in H. destruct H as (fl1 & H1 & H).
    apply bind_inr in H1. destruct H1 as (rate & Hr & H1).
    apply py_div_inv in Hr. destruct Hr as [_ ->].
    destruct (b && (q <=? 3)%Z && Qlt_bool 6 tl), b, fp;
      destruct (Qle_bool 1.10 (a / e));
      try destruct (Qle_bool 0.85 (a / e));
      injection H1 as <-;
      destruct tpp as [p|];
      try destruct (Qle_bool 0.42 p);
      try destruct (Qle_bool p 0.31);
      destruct ot; injection H as <-; reflexivity.
  - apply bind_inr in H. destruct H as (fl1 & H1 & H).
    destruct (b && (q <=? 3)%Z && Qlt_bool 6 tl), b, fp;
      injection H1 as <-;
      destruct tpp as [p|];
      try destruct (Qle_bool 0.42 p);
      try destruct (Qle_bool p 0.31);
      destruct ot; injection H as <-; reflexivity.
Qed.

(** *** The flag list read back from the result *)

Lemma digit_char_not_semicolon (d : nat) :
  (d < 10)%nat -> Ascii.eqb (digit_char d) ";" = false.
Proof. intro H. ten_digits d H. Qed.

Lemma string_of_uint_no_semicolon (d : Decimal.uint) :
  has_char ";" (NilEmpty.string_of_uint d) = false.
Proof.
  induction d; cbn [NilEmpty.string_of_uint has_char]; try exact IHd.
  reflexivity.
Qed.

Lemma dec_string_no_semicolon (n : Z) :
  has_char ";" (PyStr.dec_string n) = false.
Proof.
  unfold PyStr.dec_string, NilZero.string_of_uint.
  destruct (N.to_uint (Z.to_N n)) eqn:E; try reflexivity;
    rewrite <- E; apply string_of_uint_no_semicolon.
Qed.

Lemma frac_digits_no_semicolon (d : nat) (n : Z) :
  has_char ";" (PyStr.frac_digits d n) = false.
Proof.
  revert n. induction d as [|d IH]; intro n; cbn [PyStr.frac_digits];
    [reflexivity|].
  rewrite has_char_app, IH. cbn [has_char orb].
  change (ascii_of_nat (48 + Z.to_nat (n mod 10)))
    with (digit_char (Z.to_nat (n mod 10))).
  rewrite digit_char_not_semicolon; [reflexivity|].
  pose proof (Z.mod_pos_bound n 10 ltac:(lia)). lia.
Qed.

Lemma format_fixed_no_semicolon (d : nat) (x : Q) :
  has_char ";" (PyStr.format_fixed d x) = false.
Proof.
  unfold PyStr.format_fixed. rewrite !has_char_app, dec_string_no_semicolon.
  destruct (Qlt_bool x 0); destruct d as [|d]; try reflexivity;
    cbn [has_char String.append orb Ascii.eqb Bool.eqb andb];
    apply frac_digits_no_semicolon.
Qed.

(** Closes [has_char ";" f = false] for a flag [f] made of literal text
    and formatted numbers. *)
Ltac no_semicolon :=
  repeat progress
    (cbn [has_char String.append Ascii.eqb Bool.eqb andb orb];
     rewrite ?has_char_app, ?format_fixed_no_semicolon);
  reflexivity.

(** No flag contains the separator of the [flags] field. *)
Lemma projection_flags_no_semicolon (q : Z) (tl e : Q) (b fp : bool)
    (fta tpp : option Q) (ot : bool) (otp otpts : Q) (fl : list string) :
  projection_flags q tl e b fp fta tpp ot otp otpts = inr fl ->
  Forall (fun f => has_char ";" f = false) fl.
Proof.
  unfold projection_flags, append. intro H.
  apply bind_inr in H. destruct H as (fl1 & H1 & H).
  assert (Hfl1 : Forall (fun f => has_char ";" f = false) fl1).
  { destruct fta as [a|].
    - apply bind_inr in H1. destruct H1 as (rate & _ & H1).
      destruct (b && (q <=? 3)%Z && Qlt_bool 6 tl), b, fp;
        destruct (Qle_bool 1.10 rate);
        try destruct (Qle_bool 0.85 rate);
        injection H1 as <-;
        repeat (apply Forall_cons; [no_semicolon|]); apply Forall_nil.
    - destruct (b && (q <=? 3)%Z && Qlt_bool 6 tl), b, fp;
        injection H1 as <-;
        repeat (apply Forall_cons; [no_semicolon|]); apply Forall_nil. }
  assert (Hfl2 : forall f, has_char ";" f = false ->
                           Forall (fun f => has_char ";" f = false)
                             (fl1 ++ [f])%list).
  { intros f Hf. apply Forall_app. split; [exact Hfl1|].
    apply Forall_cons; [exact Hf|apply Forall_nil]. }
  destruct tpp as [p|];
    try destruct (Qle_bool 0.42 p);
    try destruct (Qle_bool p 0.31);
    destruct ot;
    try (apply bind_inr in H; destruct H as (f & _ & H));
    injection H as <-;
    repeat (apply Forall_app; split;
            [|apply Forall_cons; [no_semicolon|apply Forall_nil]]);
    exact Hfl1.
Qed.

Lemma split_join (sep : ascii) (l : list string) :
  l <> [] -> Forall (fun f => has_char sep f = false) l ->
  PyStr.split sep (PyStr.join (String sep "") l) = l.
Proof.
  intros Hne Hall. induction Hall as [|x r Hx Hr IH]; [contradiction|].
  destruct r as [|y r].
  - cbn [PyStr.join]. apply split_no_sep. exact Hx.
  - change (PyStr.join (String sep "") (x :: y :: r))
      with (x ++ String sep (PyStr.join (String sep "") (y :: r))).
    rewrite split_app_sep by exact Hx.
    rewrite IH by discriminate. reflexivity.
Qed.

Lemma flag_label_first_char (f : string) (l : FlagLabel) :
  flag_label f = Some l ->
  exists c rest, f = String c rest /\ Ascii.eqb c "N" = false.
Proof.
  unfold flag_label. intro H. apply find_some in H. destruct H as [_ H].
  apply startswith_iff in H. destruct H as [post ->].
  destruct l; cbn [label_text String.append]; eexists; eexists;
    (split; [reflexivity|reflexivity]).
Qed.

(** [main] recovers the flag list from the [flags] field. *)
Lemma flags_list_of_field (fl : list string) (labels : list FlagLabel) :
  map flag_label fl = map Some labels ->
  Forall (fun f => has_char ";" f = false) fl ->
  flags_list_of (flags_field fl) = fl.
Proof.
  intros Hl Hall. destruct fl as [|f r]; [reflexivity|].
  destruct labels as [|l ls]; [discriminate Hl|].
  cbn [map] in Hl. injection Hl as Hf _.
  destruct (flag_label_first_char f l Hf) as (c & rest & -> & Hc).
  unfold flags_list_of, flags_field.
  assert (Hnone : String.eqb (PyStr.join ";" (String c rest :: r)) "NONE" = false).
  { destruct r; cbn [PyStr.join String.append String.eqb]; rewrite Hc;
      reflexivity. }
  rewrite Hnone. apply split_join; [discriminate|exact Hall].
Qed.

Lemma nodup_map_injective {A B : Type} (f : A -> B) (l : list A) (x y : A) :
  NoDup (map f l) -> In x l -> In y l -> f x = f y -> x = y.
Proof.
  induction l as [|a r IH]; cbn [map]; intros Hnd Hx Hy Hf; [contradiction|].
  inversion Hnd as [|? ? Hnotin Hnd']; subst.
  destruct Hx as [->|Hx]; destruct Hy as [->|Hy].
  - reflexivity.
  - exfalso. apply Hnotin. rewrite Hf. apply in_map. exact Hy.
  - exfalso. apply Hnotin. rewrite <- Hf. apply in_map. exact Hx.
  - apply IH; assumption.
Qed.

(** C8: the flags of a result appear in the fixed detection sequence
    (bonus, free-throw parade, free-throw rate, three-point, overtime) and
    no two of them share a category: never both EARLY_BONUS_HIGH_RISK and
    BONUS_WHISTLES_ON; and when free-throw attempts are supplied, exactly
    one free-throw-rate flag, HIGH_FT_RATE for a rate of at least 1.10,
    ELEVATED_FT_RATE for a rate of at least 0.85, FT_RATE_OK below, where
    the rate is attempts / elapsed minutes. *)
Theorem flags_ordered_exclusive
    (now : string) (q : Z) (t : string) (tp lt pt : Q)
    (alpha : option Q) (thr : Q) (b fp : bool) (bb : Q)
    (fta tpp : option Q) (ot : bool) (otp otpts : Q) (r : CalcResult) :
  compute_projection now q t tp lt pt alpha thr b fp bb fta tpp ot otp otpts
    = inr r ->
  exists tl fl labels,
    clock_elapsed q t = inr (tl, elapsed_min r) /\
    flags r = flags_field fl /\
    flags_list_of (flags r) = fl /\
    map flag_label fl = map Some labels /\
    labels = spec_labels q tl (elapsed_min r) b fp fta tpp ot /\
    StronglySorted detected_before labels /\
    NoDup (map label_category labels) /\
    ~ (In EARLY_BONUS_HIGH_RISK labels /\ In BONUS_WHISTLES_ON labels) /\
    match fta with
    | Some a =>
        let rate := a / elapsed_min r in
        exists l,
          filter is_ft_rate labels = [l] /\
          (l = HIGH_FT_RATE <-> 1.10 <= rate) /\
          (l = ELEVATED_FT_RATE <-> 0.85 <= rate /\ rate < 1.10) /\
          (l = FT_RATE_OK <-> rate < 0.85)
    | None => filter is_ft_rate labels = []
    end.
Proof.
  intro H.
  destruct (compute_projection_inv _ _ _ _ _ _ _ _ _ _ _ _ _ _ _ _ _ H)
    as (tl & fl & Hc & _ & _ & _ & _ & _ & _ & _ & _ & _ & Hfl & Hf & _).
  exists tl, fl, (spec_labels q tl (elapsed_min r) b fp fta tpp ot).
  pose proof (spec_labels_sorted q tl (elapsed_min r) b fp fta tpp ot) as Hs.
  pose proof (sorted_labels_nodup _ Hs) as Hnd.
  pose proof (projection_flags_labels _ _ _ _ _ _ _ _ _ _ _ Hfl) as Hl.
  split; [exact Hc|]. split; [exact Hf|].
  split; [rewrite Hf; apply (flags_list_of_field fl _ Hl);
          exact (projection_flags_no_semicolon _ _ _ _ _ _ _ _ _ _ _ Hfl)|].
  split; [exact Hl|].
  split; [reflexivity|]. split; [exact Hs|]. split; [exact Hnd|].
  split.
  - intros [He Hb].
    assert (E : EARLY_BONUS_HIGH_RISK = BONUS_WHISTLES_ON)
      by (apply (nodup_map_injective label_category _ _ _ Hnd He Hb);
          reflexivity).
    discriminate E.
  - rewrite spec_labels_ft_rate. destruct fta as [a|].
    + apply spec_ft_rate_labels_some.
    + reflexivity.
Qed.

Lemma flags_ordered_exclusive_witness :
  exists r,
    compute_projection "2026-01-01 20:00:00" 2 "7:10" 60 224 228.5 None 4
      true true 0.25 (Some 20) (Some 0.41) true 6 10 = inr r /\
    flags r = "EARLY_BONUS_HIGH_RISK;FT_PARADE;HIGH_FT_RATE(1.19/min);3P_NORMAL(41.0%);OT_ON(6.0% -> +0.6 pts)" /\
    exists tl fl labels,
      clock_elapsed 2 "7:10" = inr (tl, elapsed_min r) /\
      flags r = flags_field fl /\
      flags_list_of (flags r) = fl /\
      map flag_label fl = map Some labels /\
      labels = spec_labels 2 tl (elapsed_min r) true true (Some 20) (Some 0.41) true /\
      StronglySorted detected_before labels /\
      NoDup (map label_category labels) /\
      ~ (In EARLY_BONUS_HIGH_RISK labels /\ In BONUS_WHISTLES_ON labels) /\
      exists l,
        filter is_ft_rate labels = [l] /\
        (l = HIGH_FT_RATE <-> 1.10 <= 20 / elapsed_min r) /\
        (l = ELEVATED_FT_RATE <-> 0.85 <= 20 / elapsed_min r /\ 20 / elapsed_min r < 1.10) /\
        (l = FT_RATE_OK <-> 20 / elapsed_min r < 0.85).
Proof.
  eexists. split; [vm_compute; reflexivity|].
  split; [reflexivity|].
  apply (flags_ordered_exclusive "2026-01-01 20:00:00" 2 "7:10" 60 224 228.5
           None 4 true true 0.25 (Some 20) (Some 0.41) true 6 10).
  vm_compute. reflexivity.
Defined.

(** * Further properties of the projection *)

Section ProjectionFacts.

Variables (now : string) (q : Z) (t : string) (tp lt pt : Q)
          (alpha : option Q) (thr : Q) (b fp : bool) (bb : Q)
          (fta tpp : option Q) (ot : bool) (otp otpts : Q).

Local Abbreviation projection :=
  (compute_projection now q t tp lt pt alpha thr b fp bb fta tpp ot otp otpts).

Lemma compute_projection_clock_error (err : PyErr) :
  clock_elapsed q t = inl err -> projection = inl err.
Proof.
  intro H. unfold compute_projection. rewrite H. reflexivity.
Qed.

Lemma alpha_used_range (r : CalcResult) :
  projection = inr r -> 0.05 <= alpha_used r <= 0.95.
Proof.
  intro H.
  destruct (compute_projection_inv _ _ _ _ _ _ _ _ _ _ _ _ _ _ _ _ _ H)
    as (tl & fl & _ & _ & _ & Ha & _).
  rewrite Ha. destruct alpha as [a|].
  - apply clamp_bounds. lra.
  - pose proof (clamp_bounds (0.35 + 0.012 * elapsed_min r) 0.35 0.90
                  ltac:(lra)) as Hb.
    unfold auto_alpha. lra.
Qed.

(** X1: the projection returns a result exactly for a clock reading that is
    accepted strictly before the final buzzer; an error of the clock is
    raised unchanged. *)
Theorem projection_returns_iff :
  ((exists r, projection = inr r) <->
   (exists tl e, clock_elapsed q t = inr (tl, e) /\ e < 48)) /\
  (forall err, clock_elapsed q t = inl err -> projection = inl err).
Proof.
  split; [split|exact compute_projection_clock_error].
  - intros [r H].
    destruct (compute_projection_inv _ _ _ _ _ _ _ _ _ _ _ _ _ _ _ _ _ H)
      as (tl & fl & Hc & _ & Hlt & _).
    exists tl, (elapsed_min r). split; assumption.
  - intros (tl & e & Hc & Hlt).
    assert (Hne : ~ e == 48) by lra.
    destruct (compute_projection_total now q t tp lt pt alpha thr b fp bb
                fta tpp ot otp otpts tl e Hc Hne) as (r & Hr & _).
    exists r. exact Hr.
Qed.

(** X2: scoring at the needed pace for the rest of regulation lands on the
    live total. *)
Theorem needed_pace_reaches_live_total (r : CalcResult) :
  projection = inr r ->
  total_points r + needed_ppm_for_live r * (48 - elapsed_min r)
    == live_total r.
Proof.
  intro H.
  destruct (compute_projection_inv _ _ _ _ _ _ _ _ _ _ _ _ _ _ _ _ _ H)
    as (tl & fl & _ & _ & Hlt & _ & _ & _ & _ & _ & Hn & _ & _ & _ & Ht & Hl & _).
  rewrite Hn, Ht, Hl. field. lra.
Qed.

Lemma pace_relations (r : CalcResult) :
  projection = inr r ->
  pace_ppm r * elapsed_min r == total_points r /\
  pace_proj r == total_points r + pace_ppm r * (48 - elapsed_min r).
Proof.
  intro H.
  destruct (compute_projection_inv _ _ _ _ _ _ _ _ _ _ _ _ _ _ _ _ _ H)
    as (tl & fl & _ & Hpos & _ & _ & Hp & Hpp & _ & _ & _ & _ & _ & _ & Ht & _).
  rewrite Hpp, Hp, Ht. split; field; lra.
Qed.

(** X3: the pace projection is the current total plus the current pace kept
    up for the rest of regulation, and the pace times the elapsed minutes
    is the current total. *)
Theorem pace_projection_extrapolates (r : CalcResult) :
  projection = inr r ->
  pace_ppm r * elapsed_min r == total_points r /\
  pace_proj r == total_points r + pace_ppm r * (48 - elapsed_min r).
Proof. exact (pace_relations r). Qed.

(** X4: the blended projection is the plain blend of pace and baseline, plus
    the whistle boosts weighted by alpha over the remaining time, plus the
    overtime adjustment; the three terms are independent of each other. *)
Theorem blended_projection_decomposition (r : CalcResult) :
  projection = inr r ->
  let a := alpha_used r in
  let remaining := 48 - elapsed_min r in
  blended_proj r ==
    total_points r + (a * pace_ppm r + (1 - a) * (pt / 48)) * remaining
    + a * remaining * ((if b then bb else 0) + (if fp then 0.35 else 0))
    + (if ot then otp / 100 * otpts else 0).
Proof.
  intro H.
  destruct (compute_projection_inv _ _ _ _ _ _ _ _ _ _ _ _ _ _ _ _ _ H)
    as (tl & fl & _ & _ & _ & _ & _ & _ & Hb & _ & _ & _ & _ & _ & Ht & _).
  cbv zeta in Hb |- *. rewrite Hb, Ht.
  unfold blended_rate_of, boost_of.
  destruct b, fp, ot; unfold Qdiv; ring.
Qed.

(** X5: without bonus, free-throw parade and overtime, the blended projection
    is the weighted mean of the pace projection and of the projection at
    the pregame rate, and lies between the two. *)
Theorem plain_blend_between (r : CalcResult) :
  b = false -> fp = false -> ot = false ->
  projection = inr r ->
  let pregame_proj := total_points r + pt / 48 * (48 - elapsed_min r) in
  blended_proj r
    == alpha_used r * pace_proj r + (1 - alpha_used r) * pregame_proj /\
  Qmin (pace_proj r) pregame_proj <= blended_proj r
    <= Qmax (pace_proj r) pregame_proj.
Proof.
  intros Hb Hfp Hot H.
  pose proof (alpha_used_range r H) as Ha.
  pose proof (pace_relations r H) as [_ Hpp].
  destruct (compute_projection_inv _ _ _ _ _ _ _ _ _ _ _ _ _ _ _ _ _ H)
    as (tl & fl & _ & _ & _ & _ & _ & _ & Hbp & _ & _ & _ & _ & _ & Ht & _).
  cbv zeta in Hbp |- *.
  set (B := total_points r + pt / 48 * (48 - elapsed_min r)).
  assert (E : blended_proj r
              == alpha_used r * pace_proj r + (1 - alpha_used r) * B).
  { rewrite Hpp, Hbp, Hb, Hfp, Hot. unfold B. rewrite Ht.
    unfold blended_rate_of, boost_of, Qdiv. ring. }
  split; [exact E|]. rewrite E.
  destruct (Qlt_le_dec (pace_proj r) B) as [Hlt|Hge].
  - rewrite Q.min_l, Q.max_r by lra. split; nra.
  - rewrite Q.min_r, Q.max_l by lra. split; nra.
Qed.

(** X6: the lean reads the edge against the threshold: OVER wins when both
    tests hold, and with a threshold of zero or less the projection never
    passes. *)
Theorem lean_reads_edge (r : CalcResult) :
  projection = inr r ->
  let edge := edge_vs_live r in
  (lean r = "LEAN: OVER" <-> thr <= edge) /\
  (lean r = "LEAN: UNDER" <-> edge < thr /\ edge <= - thr) /\
  (lean r = "PASS / WAIT" <-> edge < thr /\ - thr < edge) /\
  (0 < thr -> (lean r = "LEAN: UNDER" <-> edge <= - thr)) /\
  (thr <= 0 -> lean r <> "PASS / WAIT").
Proof.
  intro H.
  destruct (compute_projection_inv _ _ _ _ _ _ _ _ _ _ _ _ _ _ _ _ _ H)
    as (tl & fl & _ & _ & _ & _ & _ & _ & _ & _ & _ & Hl & _).
  cbv zeta. rewrite Hl. unfold lean_of.
  destruct (Qle_bool thr (edge_vs_live r)) eqn:E1;
    [|destruct (Qle_bool (edge_vs_live r) (- thr)) eqn:E2]; qbool;
    repeat split; intros; try discriminate; try reflexivity;
    try lra; try (intro; lra).
  all: try (match goal with H : _ /\ _ |- _ => destruct H end; lra).
Qed.

Lemma flags_field_none (fl : list string) (labels : list FlagLabel) :
  map flag_label fl = map Some labels ->
  (flags_field fl = "NONE" <-> fl = []).
Proof.
  intro Hl. split; [|intros ->; reflexivity].
  destruct fl as [|f rest]; [reflexivity|]. intro Hn. exfalso.
  destruct labels as [|l ls]; [discriminate Hl|].
  cbn [map] in Hl. injection Hl as Hf _.
  destruct (flag_label_first_char f l Hf) as (c & s & -> & Hc).
  unfold flags_field in Hn.
  assert (E : String.eqb (PyStr.join ";" (String c s :: rest)) "NONE" = false).
  { destruct rest; cbn [PyStr.join String.append String.eqb]; rewrite Hc;
      reflexivity. }
  rewrite Hn in E. discriminate E.
Qed.

Lemma spec_labels_nil (tl e : Q) :
  spec_labels q tl e b fp fta tpp ot = [] <->
  b = false /\ fp = false /\ fta = None /\ tpp = None /\ ot = false.
Proof.
  unfold spec_labels, spec_bonus_labels, spec_parade_labels,
    spec_ft_rate_labels, spec_three_point_labels, spec_overtime_labels.
  split.
  - intro H.
    destruct b;
      [exfalso; destruct (true && (q <=? 3)%Z && Qlt_bool 6 tl);
       simpl in H; discriminate H|].
    destruct fp; [exfalso; simpl in H; discriminate H|].
    destruct fta as [a|];
      [exfalso;
       destruct (Qle_bool 1.10 (a / e)); [|destruct (Qle_bool 0.85 (a / e))];
       simpl in H; discriminate H|].
    destruct tpp as [p|];
      [exfalso;
       destruct (Qle_bool 0.42 p); [|destruct (Qle_bool p 0.31)];
       simpl in H; discriminate H|].
    destruct ot; [exfalso; simpl in H; discriminate H|]. auto.
  - intros (-> & -> & -> & -> & ->). reflexivity.
Qed.

(** X7: the [flags] field is ["NONE"] exactly when no whistle switch is on and
    no optional statistic is supplied. *)
Theorem flags_none_iff (r : CalcResult) :
  projection = inr r ->
  (flags r = "NONE" <->
   b = false /\ fp = false /\ fta = None /\ tpp = None /\ ot = false).
Proof.
  intro H.
  destruct (compute_projection_inv _ _ _ _ _ _ _ _ _ _ _ _ _ _ _ _ _ H)
    as (tl & fl & _ & _ & _ & _ & _ & _ & _ & _ & _ & _ & Hfl & Hf & _).
  pose proof (projection_flags_labels _ _ _ _ _ _ _ _ _ _ _ Hfl) as Hl.
  rewrite Hf, (flags_field_none fl _ Hl), <- (spec_labels_nil tl (elapsed_min r)).
  split.
  - intros ->. destruct (spec_labels q tl (elapsed_min r) b fp fta tpp ot);
      [reflexivity|discriminate Hl].
  - intro E. rewrite E in Hl. destruct fl; [reflexivity|discriminate Hl].
Qed.

End ProjectionFacts.

(** X8: without a supplied alpha, the weight of the live pace grows by 0.012
    per elapsed minute above 0.35 and is capped at 0.90 from 45 minutes and
    50 seconds on. *)
Theorem auto_alpha_schedule
    (now : string) (q : Z) (t : string) (tp lt pt thr : Q) (b fp : bool)
    (bb : Q) (fta tpp : option Q) (ot : bool) (otp otpts : Q) (r : CalcResult) :
  compute_projection now q t tp lt pt None thr b fp bb fta tpp ot otp otpts
    = inr r ->
  0.35 < alpha_used r /\
  (elapsed_min r <= 275 # 6 -> alpha_used r == 0.35 + 0.012 * elapsed_min r) /\
  (275 # 6 <= elapsed_min r -> alpha_used r == 0.90).
Proof.
  intro H.
  destruct (compute_projection_inv _ _ _ _ _ _ _ _ _ _ _ _ _ _ _ _ _ H)
    as (tl & fl & _ & Hpos & _ & Ha & _).
  rewrite Ha. unfold auto_alpha.
  destruct (clamp_cases (0.35 + 0.012 * elapsed_min r) 0.35 0.90 ltac:(lra))
    as [[Hc E]|[[Hc E]|[Hc E]]]; rewrite E;
    repeat split; intros; lra.
Qed.

Lemma needed_pace_reaches_live_total_witness :
  exists r,
    compute_projection "2026-01-01 20:00:00" 3 "6:00" 150 224 228.5 None 4
      false false 0.25 None None false 6 10 = inr r /\
    total_points r + needed_ppm_for_live r * (48 - elapsed_min r)
      == live_total r.
Proof.
  eexists. split; [vm_compute; reflexivity|].
  apply (needed_pace_reaches_live_total "2026-01-01 20:00:00" 3 "6:00" 150 224
           228.5 None 4 false false 0.25 None None false 6 10).
  vm_compute. reflexivity.
Defined.

Lemma pace_projection_extrapolates_witness :
  exists r,
    compute_projection "2026-01-01 20:00:00" 2 "7:10" 60 224 228.5 None 4
      true true 0.25 (Some 20) (Some 0.41) true 6 10 = inr r /\
    pace_ppm r * elapsed_min r == total_points r /\
    pace_proj r == total_points r + pace_ppm r * (48 - elapsed_min r).
Proof.
  eexists. split; [vm_compute; reflexivity|].
  apply (pace_projection_extrapolates "2026-01-01 20:00:00" 2 "7:10" 60 224
           228.5 None 4 true true 0.25 (Some 20) (Some 0.41) true 6 10).
  vm_compute. reflexivity.
Defined.

Lemma blended_projection_decomposition_witness :
  exists r,
    compute_projection "2026-01-01 20:00:00" 2 "7:10" 60 224 228.5 None 4
      true true 0.25 (Some 20) (Some 0.41) true 6 10 = inr r /\
    blended_proj r ==
      total_points r
      + (alpha_used r * pace_ppm r + (1 - alpha_used r) * (228.5 / 48))
        * (48 - elapsed_min r)
      + alpha_used r * (48 - elapsed_min r) * (0.25 + 0.35)
      + 6 / 100 * 10.
Proof.
  eexists. split; [vm_compute; reflexivity|].
  apply (blended_projection_decomposition "2026-01-01 20:00:00" 2 "7:10" 60
           224 228.5 None 4 true true 0.25 (Some 20) (Some 0.41) true 6 10).
  vm_compute. reflexivity.
Defined.

Lemma plain_blend_between_witness :
  exists r,
    compute_projection "2026-01-01 20:00:00" 3 "6:00" 150 224 228.5 None 4
      false false 0.25 None None false 6 10 = inr r /\
    blended_proj r
      == alpha_used r * pace_proj r
         + (1 - alpha_used r)
           * (total_points r + 228.5 / 48 * (48 - elapsed_min r)) /\
    Qmin (pace_proj r) (total_points r + 228.5 / 48 * (48 - elapsed_min r))
      <= blended_proj r
      <= Qmax (pace_proj r) (total_points r + 228.5 / 48 * (48 - elapsed_min r)).
Proof.
  eexists. split; [vm_compute; reflexivity|].
  apply (plain_blend_between "2026-01-01 20:00:00" 3 "6:00" 150 224 228.5
           None 4 false false 0.25 None None false 6 10 _
           eq_refl eq_refl eq_refl).
  vm_compute. reflexivity.
Defined.

Lemma lean_reads_edge_witness :
  exists r,
    compute_projection "2026-01-01 20:00:00" 3 "6:00" 150 224 228.5 None 4
      false false 0.25 None None false 6 10 = inr r /\
    (lean r = "LEAN: OVER" <-> 4 <= edge_vs_live r) /\
    (lean r = "LEAN: UNDER" <-> edge_vs_live r < 4 /\ edge_vs_live r <= - (4)) /\
    (lean r = "PASS / WAIT" <-> edge_vs_live r < 4 /\ - (4) < edge_vs_live r) /\
    (0 < 4 -> (lean r = "LEAN: UNDER" <-> edge_vs_live r <= - (4))) /\
    (4 <= 0 -> lean r <> "PASS / WAIT").
Proof.
  eexists. split; [vm_compute; reflexivity|].
  apply (lean_reads_edge "2026-01-01 20:00:00" 3 "6:00" 150 224 228.5
           None 4 false false 0.25 None None false 6 10).
  vm_compute. reflexivity.
Defined.

Lemma flags_none_iff_witness :
  exists r,
    compute_projection "2026-01-01 20:00:00" 3 "6:00" 150 224 228.5 None 4
      false false 0.25 None None false 6 10 = inr r /\
    (flags r = "NONE" <->
     false = false /\ false = false /\ @None Q = None /\ @None Q = None
     /\ false = false).
Proof.
  eexists. split; [vm_compute; reflexivity|].
  apply (flags_none_iff "2026-01-01 20:00:00" 3 "6:00" 150 224 228.5
           None 4 false false 0.25 None None false 6 10).
  vm_compute. reflexivity.
Defined.

Lemma auto_alpha_schedule_witness :
  exists r,
    compute_projection "2026-01-01 20:00:00" 4 "1:00" 210 224 228.5 None 4
      false false 0.25 None None false 6 10 = inr r /\
    0.35 < alpha_used r /\
    (elapsed_min r <= 275 # 6 -> alpha_used r == 0.35 + 0.012 * elapsed_min r) /\
    (275 # 6 <= elapsed_min r -> alpha_used r == 0.90).
Proof.
  eexists. split; [vm_compute; reflexivity|].
  apply (auto_alpha_schedule "2026-01-01 20:00:00" 4 "1:00" 210 224 228.5
           4 false false 0.25 None None false 6 10).
  vm_compute. reflexivity.
Defined.

(** * Further properties of the clock *)

Lemma split_length (sep : ascii) (s : string) :
  List.length (PyStr.split sep s) = S (count_char sep s).
Proof.
  induction s as [|x s IH]; [reflexivity|].
  cbn [PyStr.split count_char].
  destruct (Ascii.eqb x sep); cbn [List.length].
  - rewrite IH. reflexivity.
  - destruct (PyStr.split sep s) as [|h r]; [discriminate IH|].
    cbn [List.length] in *. exact IH.
Qed.

Lemma int_error_not_bad_format {A : Type} (s : string) :
  @raise A (PyStr.int_literal_error s) <> inl bad_format.
Proof.
  unfold raise, PyStr.int_literal_error, bad_format.
  cbn [String.append]. intro H. discriminate H.
Qed.

(** X9: [parse_mmss] raises its format error exactly when the stripped
    string does not hold exactly one colon. *)
Theorem parse_mmss_format_error (s : string) :
  parse_mmss s = inl bad_format <-> count_char ":" (PyStr.strip s) <> 1%nat.
Proof.
  unfold parse_mmss.
  pose proof (split_length ":" (PyStr.strip s)) as Hlen.
  destruct (PyStr.split ":" (PyStr.strip s)) as [|p0 [|p1 [|p2 r]]];
    cbn [List.length] in Hlen.
  - discriminate Hlen.
  - split; [intros _; lia|reflexivity].
  - split; [|intro H; exfalso; lia].
    intro H. exfalso. unfold PyStr.int in H.
    destruct (PyStr.int_digits _ 0 false) as [m|]; cbn [bind ret] in H;
      [|exact (int_error_not_bad_format _ H)].
    destruct (PyStr.int_digits _ 0 false) as [n|]; cbn [bind ret] in H;
      [|exact (int_error_not_bad_format _ H)].
    destruct (_ || _ || _)%bool; simpl in H; discriminate H.
  - split; [intros _; lia|reflexivity].
Qed.

Lemma parse_mmss_components (s : string) (tl : Q) :
  parse_mmss s = inr tl ->
  exists mm ss : Z,
    (0 <= mm)%Z /\ (0 <= ss < 60)%Z /\
    tl = inject_Z mm + inject_Z ss / 60 /\
    inject_Z mm <= tl /\ tl < inject_Z mm + 1 /\ 0 <= tl.
Proof.
  unfold parse_mmss. intro H.
  destruct (PyStr.split ":" (PyStr.strip s)) as [|p0 [|p1 [|p2 r]]];
    try discriminate H.
  apply bind_inr in H. destruct H as (mm & _ & H).
  apply bind_inr in H. destruct H as (ss & _ & H).
  destruct (Z.ltb_spec mm 0) as [|Zm]; [discriminate H|].
  destruct (Z.ltb_spec ss 0) as [|Zs]; [discriminate H|].
  destruct (Z.geb_spec ss 60) as [|Zs']; [discriminate H|].
  simpl in H. injection H as <-.
  exists mm, ss. split; [assumption|]. split; [lia|]. split; [reflexivity|].
  assert (Hs0 : 0 <= inject_Z ss)
    by (change (inject_Z 0 <= inject_Z ss); rewrite <- Zle_Qle; assumption).
  assert (Hs60 : inject_Z ss < 60)
    by (change (inject_Z ss < inject_Z 60); rewrite <- Zlt_Qlt; assumption).
  assert (Hm : 0 <= inject_Z mm)
    by (change (inject_Z 0 <= inject_Z mm); rewrite <- Zle_Qle; assumption).
  assert (Hf : 0 <= inject_Z ss / 60 /\ inject_Z ss / 60 < 1).
  { split; [apply Qle_shift_div_l; lra|apply Qlt_shift_div_r; lra]. }
  lra.
Qed.

(** X10: a time that [parse_mmss] returns is a whole number of minutes plus
    less than sixty seconds, and is never negative. *)
Theorem parse_mmss_range (s : string) (tl : Q) :
  parse_mmss s = inr tl ->
  exists mm ss : Z,
    (0 <= mm)%Z /\ (0 <= ss < 60)%Z /\
    tl = inject_Z mm + inject_Z ss / 60 /\
    inject_Z mm <= tl /\ tl < inject_Z mm + 1 /\ 0 <= tl.
Proof. exact (parse_mmss_components s tl). Qed.

Lemma parse_mmss_range_witness :
  parse_mmss " 07:5 " = inr (inject_Z 7 + inject_Z 5 / 60) /\
  exists mm ss : Z,
    (0 <= mm)%Z /\ (0 <= ss < 60)%Z /\
    inject_Z 7 + inject_Z 5 / 60 = inject_Z mm + inject_Z ss / 60 /\
    inject_Z mm <= inject_Z 7 + inject_Z 5 / 60 /\
    inject_Z 7 + inject_Z 5 / 60 < inject_Z mm + 1 /\
    0 <= inject_Z 7 + inject_Z 5 / 60.
Proof.
  assert (H : parse_mmss " 07:5 " = inr (inject_Z 7 + inject_Z 5 / 60))
    by (vm_compute; reflexivity).
  split; [exact H|].
  exact (parse_mmss_range " 07:5 " _ H).
Defined.

Lemma inject_Z_pred (q : Z) : inject_Z (q - 1) == inject_Z q - 1.
Proof.
  unfold Z.sub. rewrite inject_Z_plus, inject_Z_opp. reflexivity.
Qed.

Lemma clock_elapsed_sum (q : Z) (t : string) (tl e : Q) :
  clock_elapsed q t = inr (tl, e) ->
  e + tl == 12 * inject_Z q /\ 0 <= tl /\ 0 < e <= 48.
Proof.
  intro H. destruct (clock_elapsed_inv q t tl e H) as (Hp & -> & H0 & H48).
  destruct (parse_mmss_components t tl Hp) as (mm & ss & _ & _ & _ & _ & _ & Htl).
  split; [rewrite inject_Z_pred; ring|]. repeat split; assumption.
Qed.

(** X13: an accepted reading splits the quarters played so far, twelve minutes
    each, into the elapsed time and the time left. *)
Theorem clock_elapsed_invariant (q : Z) (t : string) (tl e : Q) :
  clock_elapsed q t = inr (tl, e) ->
  e + tl == 12 * inject_Z q /\ 0 <= tl /\ 0 < e <= 48.
Proof. exact (clock_elapsed_sum q t tl e). Qed.

Lemma clock_elapsed_invariant_witness :
  exists tl e,
    clock_elapsed 2 "7:10" = inr (tl, e) /\
    e + tl == 12 * inject_Z 2 /\ 0 <= tl /\ 0 < e <= 48.
Proof.
  eexists. eexists. split; [vm_compute; reflexivity|].
  apply (clock_elapsed_invariant 2 "7:10"). vm_compute. reflexivity.
Defined.

(** X14: the elapsed time never decreases from one accepted reading to a
    reading in the same or a later quarter with no more time left, and it
    grows when the quarter is later or the clock lower. *)
Theorem clock_elapsed_monotone
    (q1 q2 : Z) (t1 t2 : string) (tl1 tl2 e1 e2 : Q) :
  clock_elapsed q1 t1 = inr (tl1, e1) ->
  clock_elapsed q2 t2 = inr (tl2, e2) ->
  (q1 <= q2)%Z -> tl2 <= tl1 ->
  e1 <= e2 /\ ((q1 < q2)%Z \/ tl2 < tl1 -> e1 < e2).
Proof.
  intros H1 H2 Hq Htl.
  destruct (clock_elapsed_sum _ _ _ _ H1) as (E1 & _).
  destruct (clock_elapsed_sum _ _ _ _ H2) as (E2 & _).
  assert (Hq' : inject_Z q1 <= inject_Z q2) by (rewrite <- Zle_Qle; exact Hq).
  split; [lra|]. intros [Hlt|Hlt]; [|lra].
  assert (inject_Z q1 < inject_Z q2) by (rewrite <- Zlt_Qlt; exact Hlt).
  lra.
Qed.

Lemma clock_elapsed_monotone_witness :
  exists tl1 tl2 e1 e2,
    clock_elapsed 2 "7:10" = inr (tl1, e1) /\
    clock_elapsed 3 "6:00" = inr (tl2, e2) /\
    (2 <= 3)%Z /\ tl2 <= tl1 /\
    e1 <= e2 /\ ((2 < 3)%Z \/ tl2 < tl1 -> e1 < e2).
Proof.
  do 4 eexists.
  split; [vm_compute; reflexivity|]. split; [vm_compute; reflexivity|].
  assert (Hq : (2 <= 3)%Z) by lia.
  assert (Htl : inject_Z 6 + inject_Z 0 / 60 <= inject_Z 7 + inject_Z 10 / 60)
    by (vm_compute; discriminate).
  split; [exact Hq|]. split; [exact Htl|].
  apply (clock_elapsed_monotone 2 3 "7:10" "6:00" _ _ _ _); try assumption;
    vm_compute; reflexivity.
Defined.

(** X15: which quarters accept a reading: the time left must lie in a window of
    48 minutes below twelve times the quarter.  With less than twelve
    minutes on the clock these are exactly the quarters 1 to 4; nothing
    ties the clock to the length of a quarter. *)
Theorem clock_accepted_iff (q : Z) (t : string) (tl : Q) :
  parse_mmss t = inr tl ->
  ((exists e, clock_elapsed q t = inr (tl, e))
   <-> 12 * inject_Z q - 48 <= tl < 12 * inject_Z q) /\
  (tl < 12 ->
   ((exists e, clock_elapsed q t = inr (tl, e)) <-> (1 <= q <= 4)%Z)).
Proof.
  intro Hp.
  destruct (parse_mmss_components t tl Hp) as (mm & ss & _ & _ & _ & _ & _ & Htl).
  destruct (clock_elapsed_cases q t tl Hp) as [_ Hin]. cbv zeta in Hin.
  assert (Hacc : (exists e, clock_elapsed q t = inr (tl, e))
                 <-> 12 * inject_Z q - 48 <= tl < 12 * inject_Z q).
  { split.
    - intros [e He].
      destruct (clock_elapsed_sum q t tl e He) as (E & _ & B). lra.
    - intro B. eexists. apply Hin. rewrite inject_Z_pred. lra. }
  split; [exact Hacc|]. intro H12. rewrite Hacc.
  split.
  - intros [Hlo Hhi].
    assert (H0 : inject_Z 0 < inject_Z q) by (change (inject_Z 0) with 0; lra).
    assert (H5 : inject_Z q < inject_Z 5) by (change (inject_Z 5) with 5; lra).
    rewrite <- Zlt_Qlt in H0, H5. lia.
  - intros [Hlo Hhi].
    assert (H1 : inject_Z 1 <= inject_Z q) by (rewrite <- Zle_Qle; exact Hlo).
    assert (H4 : inject_Z q <= inject_Z 4) by (rewrite <- Zle_Qle; exact Hhi).
    change (inject_Z 1) with 1 in H1. change (inject_Z 4) with 4 in H4. lra.
Qed.

Lemma clock_accepted_iff_witness :
  parse_mmss "20:00" = inr (inject_Z 20 + inject_Z 0 / 60) /\
  exists e, clock_elapsed 2 "20:00" = inr (inject_Z 20 + inject_Z 0 / 60, e).
Proof.
  assert (H : parse_mmss "20:00" = inr (inject_Z 20 + inject_Z 0 / 60))
    by (vm_compute; reflexivity).
  split; [exact H|].
  apply (proj1 (clock_accepted_iff 2 "20:00" _ H)).
  split; vm_compute; [discriminate|reflexivity].
Defined.

(** ** Signs, ranges and whitespace in a reading *)

Lemma lstrip_spaces_app (pre s : string) :
  all_space pre = true -> PyStr.lstrip (pre ++ s) = PyStr.lstrip s.
Proof.
  induction pre as [|x pre IH]; cbn [all_space String.append PyStr.lstrip];
    [reflexivity|].
  intro H. apply andb_true_iff in H. destruct H as [Hx Hp].
  rewrite Hx. exact (IH Hp).
Qed.

Lemma rstrip_all_space (s : string) :
  all_space s = true -> PyStr.rstrip s = "".
Proof.
  induction s as [|x s IH]; cbn [all_space PyStr.rstrip]; [reflexivity|].
  intro H. apply andb_true_iff in H. destruct H as [Hx Hs].
  rewrite (IH Hs), Hx. reflexivity.
Qed.

Lemma rstrip_app_spaces (s post : string) :
  all_space post = true -> PyStr.rstrip (s ++ post) = PyStr.rstrip s.
Proof.
  intro H. induction s as [|x s IH]; cbn [String.append PyStr.rstrip].
  - apply rstrip_all_space. exact H.
  - rewrite IH. reflexivity.
Qed.

Lemma lstrip_all_space (s : string) :
  all_space s = true -> PyStr.lstrip s = "".
Proof.
  induction s as [|x s IH]; cbn [all_space PyStr.lstrip]; [reflexivity|].
  intro H. apply andb_true_iff in H. destruct H as [Hx Hs].
  rewrite Hx. exact (IH Hs).
Qed.

(** Whitespace around a string does not change what [strip] returns. *)
Lemma strip_outer_whitespace (pre s post : string) :
  all_space pre = true -> all_space post = true ->
  PyStr.strip (pre ++ s ++ post) = PyStr.strip s.
Proof.
  intros Hpre Hpost. unfold PyStr.strip.
  rewrite lstrip_spaces_app by exact Hpre.
  induction s as [|x s IH]; cbn [String.append PyStr.lstrip].
  - rewrite lstrip_all_space by exact Hpost. reflexivity.
  - destruct (PyStr.is_space x); [exact IH|].
    change (String x (s ++ post)) with (String x s ++ post).
    apply rstrip_app_spaces. exact Hpost.
Qed.

(** X12: whitespace before and after a clock reading is ignored. *)
Theorem parse_mmss_outer_whitespace (pre s post : string) :
  all_space pre = true -> all_space post = true ->
  parse_mmss (pre ++ s ++ post) = parse_mmss s.
Proof.
  intros Hpre Hpost. unfold parse_mmss.
  rewrite (strip_outer_whitespace pre s post Hpre Hpost). reflexivity.
Qed.

Lemma parse_mmss_outer_whitespace_witness :
  all_space "  " = true /\ all_space " " = true /\
  parse_mmss ("  " ++ "7:10" ++ " ") = parse_mmss "7:10".
Proof.
  assert (H1 : all_space "  " = true) by reflexivity.
  assert (H2 : all_space " " = true) by reflexivity.
  repeat (split; [assumption|]).
  exact (parse_mmss_outer_whitespace "  " "7:10" " " H1 H2).
Defined.

Lemma strip_signed_digits (sign : ascii) (ds : list nat) :
  PyStr.is_space sign = false -> is_digits ds ->
  PyStr.strip (String sign (digit_string ds)) = String sign (digit_string ds).
Proof.
  intros Hs [Hne Hd]. unfold PyStr.strip. cbn [PyStr.lstrip]. rewrite Hs.
  change (String sign (digit_string ds))
    with (String sign "" ++ digit_string ds).
  apply rstrip_digit_string; assumption.
Qed.

Lemma int_minus_digit_string (ds : list nat) :
  is_digits ds ->
  PyStr.int ("-" ++ digit_string ds) = inr (- decimal_value ds)%Z.
Proof.
  intros Hds. unfold PyStr.int. cbn [String.append].
  rewrite strip_signed_digits by (try reflexivity; exact Hds).
  cbn [Ascii.eqb Bool.eqb fst snd]. destruct Hds as [Hne Hd].
  rewrite int_digits_digit_string by (auto; left; exact Hne).
  reflexivity.
Qed.

(** What [parse_mmss] does with two parts that [int] reads. *)
Lemma parse_mmss_parts (p0 p1 : string) (mm ss : Z) :
  PyStr.strip (p0 ++ ":" ++ p1) = p0 ++ ":" ++ p1 ->
  has_char ":" p0 = false -> has_char ":" p1 = false ->
  PyStr.int p0 = inr mm -> PyStr.int p1 = inr ss ->
  parse_mmss (p0 ++ ":" ++ p1) =
    if ((mm <? 0) || (ss <? 0) || (ss >=? 60))%Z then inl bad_component
    else inr (inject_Z mm + inject_Z ss / 60).
Proof.
  intros Hstrip H0 H1 I0 I1. unfold parse_mmss. rewrite Hstrip.
  cbn [String.append]. rewrite split_app_sep by exact H0.
  rewrite split_no_sep by exact H1. rewrite I0, I1. cbn [bind].
  destruct ((mm <? 0) || (ss <? 0) || (ss >=? 60))%Z; reflexivity.
Qed.

Lemma digit_char_not_minus_colon (ds : list nat) :
  Forall (fun d => (d < 10)%nat) ds ->
  has_char ":" ("-" ++ digit_string ds) = false.
Proof.
  intro H. cbn [String.append has_char]. rewrite digit_string_no_colon by exact H.
  reflexivity.
Qed.

(** X11: the range checks on the two components of a reading: seconds of sixty
    or more, negative minutes and negative seconds are rejected with the
    component error.  Minus zero is zero: a reading of [-0] minutes is read
    like the reading without the sign. *)
Theorem parse_mmss_component_checks (ms ss : list nat) :
  is_digits ms -> is_digits ss ->
  ((60 <= decimal_value ss)%Z ->
   parse_mmss (clock_string ms ss) = inl bad_component) /\
  ((0 < decimal_value ms)%Z ->
   parse_mmss ("-" ++ clock_string ms ss) = inl bad_component) /\
  ((0 < decimal_value ss)%Z ->
   parse_mmss (digit_string ms ++ ":" ++ "-" ++ digit_string ss)
     = inl bad_component) /\
  (decimal_value ms = 0%Z -> (decimal_value ss < 60)%Z ->
   parse_mmss ("-" ++ clock_string ms ss) = parse_mmss (clock_string ms ss)).
Proof.
  intros Hm Hs.
  pose proof (decimal_value_nonneg ms) as Hm0.
  pose proof (decimal_value_nonneg ss) as Hs0.
  pose proof (int_digit_string ms Hm) as Im.
  pose proof (int_digit_string ss Hs) as Is.
  pose proof (int_minus_digit_string ms Hm) as Im'.
  pose proof (int_minus_digit_string ss Hs) as Is'.
  destruct Hm as [Hmne Hmd]. destruct Hs as [Hsne Hsd].
  assert (Cm : has_char ":" (digit_string ms) = false)
    by (apply digit_string_no_colon; exact Hmd).
  assert (Cs : has_char ":" (digit_string ss) = false)
    by (apply digit_string_no_colon; exact Hsd).
  assert (S1 : PyStr.strip (digit_string ms ++ ":" ++ digit_string ss)
               = digit_string ms ++ ":" ++ digit_string ss)
    by (apply strip_clock_string; split; assumption).
  assert (S2 : PyStr.strip (("-" ++ digit_string ms) ++ ":" ++ digit_string ss)
               = ("-" ++ digit_string ms) ++ ":" ++ digit_string ss).
  { unfold PyStr.strip. cbn [String.append PyStr.lstrip].
    change (PyStr.is_space "-") with false. cbv iota.
    change (String "-" (digit_string ms ++ String ":" (digit_string ss)))
      with (("-" ++ digit_string ms) ++ (":" ++ digit_string ss)).
    rewrite <- string_app_assoc.
    apply rstrip_digit_string; assumption. }
  assert (S3 : PyStr.strip (digit_string ms ++ ":" ++ "-" ++ digit_string ss)
               = digit_string ms ++ ":" ++ "-" ++ digit_string ss).
  { unfold PyStr.strip. rewrite lstrip_digit_string by assumption.
    change (digit_string ms ++ ":" ++ "-" ++ digit_string ss)
      with (digit_string ms ++ ":-" ++ digit_string ss).
    rewrite <- string_app_assoc.
    apply rstrip_digit_string; assumption. }
  pose proof (parse_mmss_parts _ _ _ _ S1 Cm Cs Im Is) as P1.
  pose proof (parse_mmss_parts _ _ _ _ S2
                (digit_char_not_minus_colon ms Hmd) Cs Im' Is) as P2.
  pose proof (parse_mmss_parts _ _ _ _ S3 Cm
                (digit_char_not_minus_colon ss Hsd) Im Is') as P3.
  fold (clock_string ms ss) in P1.
  change (("-" ++ digit_string ms) ++ ":" ++ digit_string ss)
    with ("-" ++ clock_string ms ss) in P2.
  repeat split.
  - intro H. rewrite P1.
    destruct (Z.ltb_spec (decimal_value ms) 0); [reflexivity|].
    destruct (Z.ltb_spec (decimal_value ss) 0); [reflexivity|].
    destruct (Z.geb_spec (decimal_value ss) 60); [reflexivity|lia].
  - intro H. rewrite P2.
    destruct (Z.ltb_spec (- decimal_value ms) 0); [reflexivity|lia].
  - intro H. rewrite P3.
    destruct (Z.ltb_spec (decimal_value ms) 0); [reflexivity|].
    destruct (Z.ltb_spec (- decimal_value ss) 0); [reflexivity|lia].
  - intros H0 H60. rewrite P1, P2, H0. reflexivity.
Qed.

Lemma parse_mmss_component_checks_witness :
  is_digits [7]%nat /\ is_digits [6; 0]%nat /\
  (60 <= decimal_value [6; 0]%nat)%Z /\
  parse_mmss "7:60" = inl bad_component.
Proof.
  assert (H7 : is_digits [7]%nat).
  { split; [discriminate|repeat constructor; lia]. }
  assert (H60 : is_digits [6; 0]%nat).
  { split; [discriminate|repeat constructor; lia]. }
  assert (Hv : (60 <= decimal_value [6; 0]%nat)%Z) by (vm_compute; discriminate).
  repeat (split; [assumption|]).
  exact (proj1 (parse_mmss_component_checks [7]%nat [6; 0]%nat H7 H60) Hv).
Defined.

(** * Further properties of the hedge *)

(** ** Decimal odds *)

(** X16: zero is the only American price [dec_from_american] rejects; every
    other price gives decimal odds above 1, computed from the price as the
    specification of decimal odds says. *)
Theorem decimal_odds_defined (a : Q) :
  (dec_from_american a = inl (ValueError "American odds cannot be 0.")
   <-> a == 0) /\
  ((exists d, dec_from_american a = inr d /\ 1 < d /\ d == spec_decimal a)
   <-> ~ a == 0).
Proof.
  split; split.
  - intro H. destruct (Qeq_dec a 0) as [E|E]; [exact E|].
    destruct (dec_from_american_ok a E) as (d & Hd & _).
    rewrite Hd in H. discriminate H.
  - apply dec_from_american_zero.
  - intros (d & Hd & _) E. rewrite (dec_from_american_zero a E) in Hd.
    discriminate Hd.
  - intro E. destruct (dec_from_american_ok a E) as (d & Hd & Hs & Hg).
    exists d. auto.
Qed.

Lemma spec_decimal_pos (a : Q) : 0 < a -> spec_decimal a == 1 + a / 100.
Proof.
  intro H. unfold spec_decimal.
  destruct (Qlt_le_dec a 0); [exfalso; lra|reflexivity].
Qed.

Lemma spec_decimal_neg (a : Q) : a < 0 -> spec_decimal a == 1 + 100 / - a.
Proof.
  intro H. unfold spec_decimal.
  destruct (Qlt_le_dec a 0); [|exfalso; lra].
  rewrite Qabs_neg by lra. reflexivity.
Qed.

(** X17: prices of the same sign are ordered like their decimal odds, and a
    positive price [a] pays the same as the negative price [b] exactly
    when [a * -b] is 10000, as +150 and -200/3 do. *)
Theorem decimal_odds_order (a b da db : Q) :
  dec_from_american a = inr da -> dec_from_american b = inr db ->
  (0 < a -> 0 < b -> (a <= b <-> da <= db)) /\
  (a < 0 -> b < 0 -> (a <= b <-> da <= db)) /\
  (0 < a -> b < 0 -> (da == db <-> a * - b == 10000)).
Proof.
  intros Ha Hb.
  assert (Na : ~ a == 0).
  { intro E. rewrite (dec_from_american_zero a E) in Ha. discriminate Ha. }
  assert (Nb : ~ b == 0).
  { intro E. rewrite (dec_from_american_zero b E) in Hb. discriminate Hb. }
  destruct (dec_from_american_ok a Na) as (da' & Ha' & Sa & _).
  destruct (dec_from_american_ok b Nb) as (db' & Hb' & Sb & _).
  rewrite Ha in Ha'. injection Ha' as <-.
  rewrite Hb in Hb'. injection Hb' as <-.
  rewrite Sa, Sb.
  split; [|split].
  - intros Pa Pb. rewrite (spec_decimal_pos a Pa), (spec_decimal_pos b Pb).
    change (a / 100) with (a * (1 # 100)).
    change (b / 100) with (b * (1 # 100)).
    split; intro H; lra.
  - intros Pa Pb. rewrite (spec_decimal_neg a Pa), (spec_decimal_neg b Pb).
    assert (Ia : (- a) * / (- a) == 1) by (apply Qmult_inv_r; lra).
    assert (Ib : (- b) * / (- b) == 1) by (apply Qmult_inv_r; lra).
    assert (Ja : 0 < / (- a)) by (apply Qinv_lt_0_compat; lra).
    assert (Jb : 0 < / (- b)) by (apply Qinv_lt_0_compat; lra).
    unfold Qdiv. revert Ia Ib Ja Jb.
    generalize (/ - a) (/ - b). intros ix iy Ia Ib Ja Jb.
    split; intro H; [assert (ix <= iy) by nra; lra|nra].
  - intros Pa Pb. rewrite (spec_decimal_pos a Pa), (spec_decimal_neg b Pb).
    assert (Ib : (- b) * / (- b) == 1) by (apply Qmult_inv_r; lra).
    assert (Jb : 0 < / (- b)) by (apply Qinv_lt_0_compat; lra).
    change (a / 100) with (a * (1 # 100)).
    unfold Qdiv. revert Ib Jb. generalize (/ - b). intros iy Ib Jb.
    split; intro H; [nra|assert (a * (1 # 100) == 100 * iy) by nra; lra].
Qed.

Lemma decimal_odds_order_witness :
  exists da db,
    dec_from_american 150 = inr da /\ dec_from_american (-200) = inr db /\
    (0 < 150 -> -200 < 0 -> (da == db <-> 150 * - (-200) == 10000)).
Proof.
  do 2 eexists.
  split; [vm_compute; reflexivity|]. split; [vm_compute; reflexivity|].
  apply (decimal_odds_order 150 (-200) _ _); vm_compute; reflexivity.
Defined.

(** ** Stakes and profits *)

(** X18: with a positive stake, the equalised hedge guarantees a profit exactly
    when the two decimal odds satisfy the arbitrage condition
    1/dec0 + 1/dech < 1; the hedge stake is positive, and the best case
    exceeds the worst case by the payout of the original bet. *)
Theorem hedge_guaranteed_profit_iff
    (side : string) (sd : Side) (ml ms mo hl ho lt : Q) (fl : list string) :
  side_of side = Some sd -> ~ mo == 0 -> ~ ho == 0 -> 0 < ms ->
  exists r,
    hedge_equalize side ml ms mo hl ho lt fl = inr r /\
    0 < equalized_hedge_stake r /\
    (0 < worst_case_profit r
     <-> / spec_decimal mo + / spec_decimal ho < 1) /\
    best_case_profit r == worst_case_profit r + ms * spec_decimal mo.
Proof.
  intros Hs Hm Hh Hms.
  destruct (hedge_equalize_ok side ml ms mo hl ho lt fl sd Hs Hm Hh)
    as (dec0 & dech & r & _ & S0 & G0 & _ & Sh & Gh & Hr & _ & Hst & _ & Hw & Hb).
  exists r. split; [exact Hr|].
  rewrite Hst, Hw, Hb, py_min_spec, <- S0, <- Sh.
  assert (I0 : dec0 * / dec0 == 1) by (apply Qmult_inv_r; lra).
  assert (Ih : dech * / dech == 1) by (apply Qmult_inv_r; lra).
  assert (J0 : 0 < / dec0) by (apply Qinv_lt_0_compat; lra).
  assert (Jh : 0 < / dech) by (apply Qinv_lt_0_compat; lra).
  assert (Hmin : Qmin (ms * (dec0 - 1) + - (ms * dec0 / dech))
                      (- ms + ms * dec0 / dech * (dech - 1))
                 == ms * (dec0 - 1) - ms * dec0 / dech).
  { rewrite Q.min_l; [reflexivity|].
    assert (E : ms * (dec0 - 1) - ms * dec0 / dech
                == ms * dec0 / dech * (dech - 1) - ms) by (field; lra).
    lra. }
  rewrite Hmin. unfold Qdiv.
  revert I0 Ih J0 Jh. generalize (/ dec0) (/ dech). intros i0 ih I0 Ih J0 Jh.
  assert (Hprod : 0 < ms * dec0) by nra.
  split; [nra|]. split; [split; intro H; nra|].
  assert (E : ms * dec0 * ih * dech == ms * dec0) by nra.
  nra.
Qed.

Lemma hedge_guaranteed_profit_iff_witness :
  side_of "OVER" = Some OVER /\ ~ 150 == 0 /\ ~ 120 == 0 /\ 0 < 100 /\
  exists r,
    hedge_equalize "OVER" 228.5 100 150 230 120 222 [] = inr r /\
    0 < equalized_hedge_stake r /\
    (0 < worst_case_profit r
     <-> / spec_decimal 150 + / spec_decimal 120 < 1) /\
    best_case_profit r == worst_case_profit r + 100 * spec_decimal 150.
Proof.
  assert (H1 : side_of "OVER" = Some OVER) by reflexivity.
  assert (H2 : ~ 150 == 0) by (intro E; discriminate E).
  assert (H3 : ~ 120 == 0) by (intro E; discriminate E).
  assert (H4 : 0 < 100) by reflexivity.
  repeat (split; [assumption|]).
  exact (hedge_guaranteed_profit_iff "OVER" OVER 228.5 100 150 230 120 222 []
           H1 H2 H3 H4).
Defined.

(** X19: the hedge stake and both profit bounds depend on the stake and the two
    prices only, and are proportional to the stake. *)
Theorem hedge_amounts_scale
    (side1 side2 : string) (sd1 sd2 : Side) (k ms mo ho : Q)
    (ml1 hl1 lt1 ml2 hl2 lt2 : Q) (fl1 fl2 : list string) :
  side_of side1 = Some sd1 -> side_of side2 = Some sd2 ->
  ~ mo == 0 -> ~ ho == 0 ->
  exists r1 r2,
    hedge_equalize side1 ml1 ms mo hl1 ho lt1 fl1 = inr r1 /\
    hedge_equalize side2 ml2 (k * ms) mo hl2 ho lt2 fl2 = inr r2 /\
    equalized_hedge_stake r2 == k * equalized_hedge_stake r1 /\
    worst_case_profit r2 == k * worst_case_profit r1 /\
    best_case_profit r2 == k * best_case_profit r1.
Proof.
  intros Hs1 Hs2 Hm Hh.
  destruct (hedge_equalize_ok side1 ml1 ms mo hl1 ho lt1 fl1 sd1 Hs1 Hm Hh)
    as (dec0 & dech & r1 & E0 & _ & G0 & Eh & _ & Gh & Hr1 & _ & Hst1 & _ & Hw1 & Hb1).
  destruct (hedge_equalize_ok side2 ml2 (k * ms) mo hl2 ho lt2 fl2 sd2 Hs2 Hm Hh)
    as (dec0' & dech' & r2 & E0' & _ & _ & Eh' & _ & _ & Hr2 & _ & Hst2 & _ & Hw2 & Hb2).
  rewrite E0 in E0'. injection E0' as <-.
  rewrite Eh in Eh'. injection Eh' as <-.
  exists r1, r2. split; [exact Hr1|]. split; [exact Hr2|].
  rewrite Hst1, Hst2, Hw1, Hw2, Hb1, Hb2, !py_min_spec.
  assert (Hne : ~ dech == 0) by lra.
  assert (Eq1 : ms * (dec0 - 1) + - (ms * dec0 / dech)
                == - ms + ms * dec0 / dech * (dech - 1)) by (field; exact Hne).
  assert (Eq2 : k * ms * (dec0 - 1) + - (k * ms * dec0 / dech)
                == - (k * ms) + k * ms * dec0 / dech * (dech - 1))
    by (field; exact Hne).
  split; [field; exact Hne|]. split; [|field; exact Hne].
  rewrite !Q.min_l by lra. field. exact Hne.
Qed.

Lemma hedge_amounts_scale_witness :
  side_of "OVER" = Some OVER /\ side_of "under" = Some UNDER /\
  ~ -110 == 0 /\ ~ 150 == 0 /\
  exists r1 r2,
    hedge_equalize "OVER" 228.5 100 (-110) 230 150 222 [] = inr r1 /\
    hedge_equalize "under" 220 (3 * 100) (-110) 215 150 218 ["FT_PARADE"]
      = inr r2 /\
    equalized_hedge_stake r2 == 3 * equalized_hedge_stake r1 /\
    worst_case_profit r2 == 3 * worst_case_profit r1 /\
    best_case_profit r2 == 3 * best_case_profit r1.
Proof.
  assert (H1 : side_of "OVER" = Some OVER) by reflexivity.
  assert (H2 : side_of "under" = Some UNDER) by reflexivity.
  assert (H3 : ~ -110 == 0) by (intro E; discriminate E).
  assert (H4 : ~ 150 == 0) by (intro E; discriminate E).
  repeat (split; [assumption|]).
  exact (hedge_amounts_scale "OVER" "under" OVER UNDER 3 100 (-110) 150
           228.5 230 222 220 215 218 [] ["FT_PARADE"] H1 H2 H3 H4).
Defined.

(** ** Hedging at the live line *)

Lemma suggestion_of_signal (clv : Q) (bad warn : Z) :
  suggestion_of clv bad warn <> "No hedge signal" -> 3 <= clv.
Proof.
  unfold suggestion_of. intro H.
  destruct (Qle_bool 6 clv) eqn:E6; qbool; [lra|].
  destruct (Qle_bool 3 clv) eqn:E3; qbool; [exact E3|].
  exfalso. apply H. reflexivity.
Qed.

(** X20: when the hedge is placed at the live total, which is what [main] does
    for a blank hedge line, a middle is reported exactly when the closing
    line value is positive; so every suggestion other than "No hedge
    signal" comes with a middle. *)
Theorem live_hedge_line_middle
    (side : string) (sd : Side) (ml ms mo ho lt : Q) (fl : list string) :
  side_of side = Some sd -> ~ mo == 0 -> ~ ho == 0 ->
  exists r,
    hedge_equalize side ml ms mo lt ho lt fl = inr r /\
    (reports_middle (middle_note r) <-> 0 < spec_clv sd ml lt) /\
    (suggestion r <> "No hedge signal" -> reports_middle (middle_note r)).
Proof.
  intros Hs Hm Hh.
  destruct (hedge_equalize_ok side ml ms mo lt ho lt fl sd Hs Hm Hh)
    as (dec0 & dech & r & _ & _ & _ & _ & _ & _ & Hr & Hsg & _ & Hn & _).
  exists r. split; [exact Hr|].
  assert (Hmid : reports_middle (middle_note r) <-> 0 < spec_clv sd ml lt).
  { rewrite Hn. destruct sd; cbn [side_text spec_clv].
    - destruct (middle_note_of_over ml lt) as [Hy Hno].
      destruct (Qlt_le_dec ml lt) as [Hlt|Hge].
      + rewrite (Hy Hlt). split; intro; [lra|apply reports_middle_text].
      + rewrite Hno by lra. split; intro Hc; [discriminate Hc|exfalso; lra].
    - destruct (middle_note_of_under ml lt) as [Hy Hno].
      destruct (Qlt_le_dec lt ml) as [Hlt|Hge].
      + rewrite (Hy Hlt). split; intro; [lra|apply reports_middle_text].
      + rewrite Hno by lra. split; intro Hc; [discriminate Hc|exfalso; lra]. }
  split; [exact Hmid|]. intro Hne. apply Hmid.
  rewrite Hsg in Hne. apply suggestion_of_signal in Hne.
  rewrite clv_of_side_text in Hne. lra.
Qed.

Lemma live_hedge_line_middle_witness :
  side_of "UNDER" = Some UNDER /\ ~ -110 == 0 /\ ~ -105 == 0 /\
  exists r,
    hedge_equalize "UNDER" 228.5 100 (-110) 222 (-105) 222 ["FT_PARADE"] = inr r /\
    (reports_middle (middle_note r) <-> 0 < spec_clv UNDER 228.5 222) /\
    (suggestion r <> "No hedge signal" -> reports_middle (middle_note r)).
Proof.
  assert (H1 : side_of "UNDER" = Some UNDER) by reflexivity.
  assert (H2 : ~ -110 == 0) by (intro E; discriminate E).
  assert (H3 : ~ -105 == 0) by (intro E; discriminate E).
  repeat (split; [assumption|]).
  exact (live_hedge_line_middle "UNDER" UNDER 228.5 100 (-110) (-105) 222
           ["FT_PARADE"] H1 H2 H3).
Defined.

(** * From the projection to the hedge *)

Lemma all_payload_app (a b : string) :
  all_payload (a ++ b) = all_payload a && all_payload b.
Proof.
  induction a as [|x a IH]; cbn [String.append all_payload]; [reflexivity|].
  rewrite IH, andb_assoc. reflexivity.
Qed.

Lemma digit_char_payload (d : nat) :
  (d < 10)%nat -> payload_char (digit_char d) = true.
Proof. intro H. ten_digits d H. Qed.

Lemma string_of_uint_payload (d : Decimal.uint) :
  all_payload (NilEmpty.string_of_uint d) = true.
Proof.
  induction d; cbn [NilEmpty.string_of_uint all_payload]; try exact IHd.
  reflexivity.
Qed.

Lemma dec_string_payload (n : Z) : all_payload (PyStr.dec_string n) = true.
Proof.
  unfold PyStr.dec_string, NilZero.string_of_uint.
  destruct (N.to_uint (Z.to_N n)) eqn:E; try reflexivity;
    rewrite <- E; apply string_of_uint_payload.
Qed.

Lemma frac_digits_payload (d : nat) (n : Z) :
  all_payload (PyStr.frac_digits d n) = true.
Proof.
  revert n. induction d as [|d IH]; intro n; cbn [PyStr.frac_digits];
    [reflexivity|].
  rewrite all_payload_app, IH. cbn [all_payload andb].
  change (ascii_of_nat (48 + Z.to_nat (n mod 10)))
    with (digit_char (Z.to_nat (n mod 10))).
  rewrite digit_char_payload; [reflexivity|].
  pose proof (Z.mod_pos_bound n 10 ltac:(lia)). lia.
Qed.

(** A formatted number is made of digits, a sign and a point. *)
Lemma format_fixed_payload (d : nat) (x : Q) :
  all_payload (PyStr.format_fixed d x) = true.
Proof.
  unfold PyStr.format_fixed. rewrite !all_payload_app, dec_string_payload.
  destruct (Qlt_bool x 0); destruct d as [|d]; try reflexivity;
    cbn [all_payload String.append andb];
    rewrite frac_digits_payload; reflexivity.
Qed.

(** A needle whose second character cannot occur in a number does not
    start inside a number. *)
Lemma contains_after_payload (a b : ascii) (n p s : string) :
  all_payload p = true -> payload_char b = false -> head_differs b s = true ->
  PyStr.contains (String a (String b n)) (p ++ s)
    = PyStr.contains (String a (String b n)) s.
Proof.
  intros Hp Hb Hs. induction p as [|c p IH]; [reflexivity|].
  cbn [all_payload] in Hp. apply andb_true_iff in Hp. destruct Hp as [Hc Hp].
  cbn [String.append PyStr.contains]. rewrite (IH Hp).
  assert (E : PyStr.startswith (String a (String b n)) (String c (p ++ s))
              = false).
  { cbn [PyStr.startswith]. destruct (p ++ s) as [|c' r] eqn:Hps.
    - apply andb_false_r.
    - assert (Hc' : Ascii.eqb b c' = false).
      { destruct p as [|c'' p'].
        - cbn [String.append] in Hps. subst s. cbn [head_differs] in Hs.
          apply negb_true_iff in Hs. exact Hs.
        - cbn [String.append] in Hps. injection Hps as -> _.
          cbn [all_payload] in Hp. apply andb_true_iff in Hp.
          destruct Hp as [Hc'' _].
          destruct (Ascii.eqb_spec b c') as [->|]; [congruence|reflexivity]. }
      rewrite Hc'. cbn [andb]. apply andb_false_r. }
  rewrite E. reflexivity.
Qed.

(** Evaluates the substring tests of the hedge on a flag made of literal
    text and numbers [p] with [all_payload p = true] in the context. *)
Ltac flag_tests :=
  unfold is_bad, is_warn;
  repeat progress
    (cbn [PyStr.contains PyStr.startswith String.append
            Ascii.eqb Bool.eqb andb orb];
     rewrite ?contains_after_payload by (assumption || reflexivity));
  try reflexivity.

Section FlagTests.

Variables p p' : string.
Hypothesis Hp : all_payload p = true.
Hypothesis Hp' : all_payload p' = true.

Lemma tests_high_ft_rate :
  is_bad ("HIGH_FT_RATE(" ++ p ++ "/min)") = true /\
  is_warn ("HIGH_FT_RATE(" ++ p ++ "/min)") = false.
Proof. split; flag_tests. Qed.

Lemma tests_elevated_ft_rate :
  is_bad ("ELEVATED_FT_RATE(" ++ p ++ "/min)") = false /\
  is_warn ("ELEVATED_FT_RATE(" ++ p ++ "/min)") = true.
Proof. split; flag_tests. Qed.

Lemma tests_ft_rate_ok :
  is_bad ("FT_RATE_OK(" ++ p ++ "/min)") = false /\
  is_warn ("FT_RATE_OK(" ++ p ++ "/min)") = false.
Proof. split; flag_tests. Qed.

Lemma tests_3p_hot :
  is_bad ("3P_HOT(" ++ p ++ "%)") = false /\
  is_warn ("3P_HOT(" ++ p ++ "%)") = true.
Proof. split; flag_tests. Qed.

Lemma tests_3p_cold :
  is_bad ("3P_COLD(" ++ p ++ "%)") = false /\
  is_warn ("3P_COLD(" ++ p ++ "%)") = true.
Proof. split; flag_tests. Qed.

Lemma tests_3p_normal :
  is_bad ("3P_NORMAL(" ++ p ++ "%)") = false /\
  is_warn ("3P_NORMAL(" ++ p ++ "%)") = true.
Proof. split; flag_tests. Qed.

Lemma tests_ot_on :
  is_bad ("OT_ON(" ++ p ++ "% -> +" ++ p' ++ " pts)") = false /\
  is_warn ("OT_ON(" ++ p ++ "% -> +" ++ p' ++ " pts)") = true.
Proof. split; flag_tests. Qed.

End FlagTests.

Lemma sum_bool_append (p : string -> bool) (l : list string) (x : string) :
  sum_bool p (append l x) = (sum_bool p l + Z.b2z (p x))%Z.
Proof.
  unfold sum_bool, append. rewrite fold_left_app. cbn [fold_left].
  destruct (p x); reflexivity.
Qed.

(** The substring tests of the hedge, summed over the flag list of a
    projection. *)
Lemma projection_flags_counts (q : Z) (tl e : Q) (b fp : bool)
    (fta tpp : option Q) (ot : bool) (otp otpts : Q) (fl : list string) :
  projection_flags q tl e b fp fta tpp ot otp otpts = inr fl ->
  sum_bool is_bad fl = bad_flag_count q tl e b fp fta /\
  sum_bool is_warn fl = warn_flag_count e b fta tpp ot.
Proof.
  unfold projection_flags. intro H.
  apply bind_inr in H. destruct H as (fl1 & H1 & H2).
  set (B0 := if b && (q <=? 3)%Z && Qlt_bool 6 tl
             then append [] "EARLY_BONUS_HIGH_RISK"
             else if b then append [] "BONUS/WHISTLES_ON" else []) in *.
  set (F0 := if fp then append B0 "FT_PARADE" else B0) in *.
  assert (HB : sum_bool is_bad B0 = Z.b2z (b && (q <=? 3)%Z && Qlt_bool 6 tl)
               /\ sum_bool is_warn B0 = Z.b2z b).
  { unfold B0. destruct b, (q <=? 3)%Z, (Qlt_bool 6 tl); split; reflexivity. }
  assert (HF : sum_bool is_bad F0 = (sum_bool is_bad B0 + Z.b2z fp)%Z
               /\ sum_bool is_warn F0 = sum_bool is_warn B0).
  { unfold F0.
    destruct fp;
      [rewrite !sum_bool_append;
       change (is_bad "FT_PARADE") with true;
       change (is_warn "FT_PARADE") with false|];
      cbn [Z.b2z]; split; lia. }
  assert (H1' : sum_bool is_bad fl1
                = (sum_bool is_bad F0
                   + Z.b2z match fta with
                           | Some a => Qle_bool 1.10 (a / e)
                           | None => false
                           end)%Z
                /\ sum_bool is_warn fl1
                   = (sum_bool is_warn F0
                      + Z.b2z match fta with
                              | Some a => negb (Qle_bool 1.10 (a / e))
                                          && Qle_bool 0.85 (a / e)
                              | None => false
                              end)%Z).
  { destruct fta as [a|].
    - apply bind_inr in H1. destruct H1 as (rate & Hr & H1).
      apply py_div_inv in Hr. destruct Hr as [_ ->].
      destruct (Qle_bool 1.10 (a / e));
        [|destruct (Qle_bool 0.85 (a / e))].
      + assert (fl1 = append F0 ("HIGH_FT_RATE("
                                   ++ PyStr.format_fixed 2 (a / e) ++ "/min)"))
          as -> by (injection H1 as <-; reflexivity).
        rewrite !sum_bool_append.
        destruct (tests_high_ft_rate _ (format_fixed_payload 2 (a / e)))
          as [-> ->]. cbn [Z.b2z negb andb]. split; lia.
      + assert (fl1 = append F0 ("ELEVATED_FT_RATE("
                                   ++ PyStr.format_fixed 2 (a / e) ++ "/min)"))
          as -> by (injection H1 as <-; reflexivity).
        rewrite !sum_bool_append.
        destruct (tests_elevated_ft_rate _ (format_fixed_payload 2 (a / e)))
          as [-> ->]. cbn [Z.b2z negb andb]. split; lia.
      + assert (fl1 = append F0 ("FT_RATE_OK("
                                   ++ PyStr.format_fixed 2 (a / e) ++ "/min)"))
          as -> by (injection H1 as <-; reflexivity).
        rewrite !sum_bool_append.
        destruct (tests_ft_rate_ok _ (format_fixed_payload 2 (a / e)))
          as [-> ->]. cbn [Z.b2z negb andb]. split; lia.
    - injection H1 as <-. cbn [Z.b2z]. split; lia. }
  set (T0 := match tpp with
             | Some pct =>
                 if Qle_bool 0.42 pct
                 then append fl1 ("3P_HOT(" ++ PyStr.format_fixed 1 (pct * 100) ++ "%)")
                 else if Qle_bool pct 0.31
                 then append fl1 ("3P_COLD(" ++ PyStr.format_fixed 1 (pct * 100) ++ "%)")
                 else append fl1 ("3P_NORMAL(" ++ PyStr.format_fixed 1 (pct * 100) ++ "%)")
             | None => fl1
             end) in *.
  assert (HT : sum_bool is_bad T0 = sum_bool is_bad fl1
               /\ sum_bool is_warn T0
                  = (sum_bool is_warn fl1
                     + Z.b2z match tpp with
                             | Some _ => true
                             | None => false
                             end)%Z).
  { unfold T0. destruct tpp as [pct|].
    - destruct (Qle_bool 0.42 pct); [|destruct (Qle_bool pct 0.31)];
        rewrite !sum_bool_append.
      + destruct (tests_3p_hot _ (format_fixed_payload 1 (pct * 100)))
          as [-> ->]. cbn [Z.b2z]. split; lia.
      + destruct (tests_3p_cold _ (format_fixed_payload 1 (pct * 100)))
          as [-> ->]. cbn [Z.b2z]. split; lia.
      + destruct (tests_3p_normal _ (format_fixed_payload 1 (pct * 100)))
          as [-> ->]. cbn [Z.b2z]. split; lia.
    - cbn [Z.b2z]. split; lia. }
  assert (HO : sum_bool is_bad fl = sum_bool is_bad T0
               /\ sum_bool is_warn fl = (sum_bool is_warn T0 + Z.b2z ot)%Z).
  { destruct ot.
    - apply bind_inr in H2. destruct H2 as (f & _ & H2).
      assert (fl = append T0 ("OT_ON(" ++ PyStr.format_fixed 1 otp ++ "% -> +"
                                ++ PyStr.format_fixed 1 (f * otpts) ++ " pts)"))
        as -> by (injection H2 as <-; reflexivity).
      rewrite !sum_bool_append.
      destruct (tests_ot_on _ _ (format_fixed_payload 1 otp)
                  (format_fixed_payload 1 (f * otpts))) as [-> ->].
      cbn [Z.b2z]. split; lia.
    - injection H2 as <-. cbn [Z.b2z]. split; lia. }
  unfold bad_flag_count, warn_flag_count.
  destruct HB as [HB1 HB2], HF as [HF1 HF2], H1' as [H11 H12],
    HT as [HT1 HT2], HO as [HO1 HO2].
  split; lia.
Qed.

(** X21: when [main] hands the flags of a projection to the hedge, the hedge
    counts as bad the early-bonus flag, the free-throw parade and a high
    free-throw rate, and as warnings the bonus in either form, an elevated
    free-throw rate, any supplied three-point percentage and the overtime
    adjustment; the suggestion is read from these counts and the closing
    line value against the live total of the projection. *)
Theorem hedge_reads_projection_flags
    (now : string) (q : Z) (t : string) (tp lt pt : Q)
    (alpha : option Q) (thr : Q) (b fp : bool) (bb : Q)
    (fta tpp : option Q) (ot : bool) (otp otpts : Q) (r : CalcResult)
    (side : string) (sd : Side) (ml ms mo hl ho : Q) :
  compute_projection now q t tp lt pt alpha thr b fp bb fta tpp ot otp otpts
    = inr r ->
  side_of side = Some sd -> ~ mo == 0 -> ~ ho == 0 ->
  exists tl h,
    clock_elapsed q t = inr (tl, elapsed_min r) /\
    hedge_equalize side ml ms mo hl ho lt (flags_list_of (flags r)) = inr h /\
    sum_bool is_bad (flags_list_of (flags r))
      = bad_flag_count q tl (elapsed_min r) b fp fta /\
    sum_bool is_warn (flags_list_of (flags r))
      = warn_flag_count (elapsed_min r) b fta tpp ot /\
    suggestion h
      = suggestion_of (spec_clv sd ml lt)
          (bad_flag_count q tl (elapsed_min r) b fp fta)
          (warn_flag_count (elapsed_min r) b fta tpp ot).
Proof.
  intros H Hs Hm Hh.
  destruct (compute_projection_inv _ _ _ _ _ _ _ _ _ _ _ _ _ _ _ _ _ H)
    as (tl & fl & Hc & _ & _ & _ & _ & _ & _ & _ & _ & _ & Hfl & Hf & _).
  pose proof (projection_flags_labels _ _ _ _ _ _ _ _ _ _ _ Hfl) as Hl.
  pose proof (projection_flags_no_semicolon _ _ _ _ _ _ _ _ _ _ _ Hfl) as Hsemi.
  pose proof (flags_list_of_field fl _ Hl Hsemi) as Hback.
  destruct (projection_flags_counts _ _ _ _ _ _ _ _ _ _ _ Hfl) as [Hbad Hwarn].
  rewrite Hf, Hback.
  destruct (hedge_equalize_ok side ml ms mo hl ho lt fl sd Hs Hm Hh)
    as (dec0 & dech & h & _ & _ & _ & _ & _ & _ & Hh' & Hsg & _).
  exists tl, h. split; [exact Hc|]. split; [exact Hh'|].
  split; [exact Hbad|]. split; [exact Hwarn|].
  rewrite Hsg, clv_of_side_text, Hbad, Hwarn. reflexivity.
Qed.

Lemma hedge_reads_projection_flags_witness :
  exists r,
    compute_projection "2026-01-01 20:00:00" 2 "7:10" 60 224 228.5 None 4
      true true 0.25 (Some 20) (Some 0.41) true 6 10 = inr r /\
    side_of "under" = Some UNDER /\ ~ -110 == 0 /\ ~ -105 == 0 /\
    exists tl h,
      clock_elapsed 2 "7:10" = inr (tl, elapsed_min r) /\
      hedge_equalize "under" 231 100 (-110) 224 (-105) 224
        (flags_list_of (flags r)) = inr h /\
      sum_bool is_bad (flags_list_of (flags r))
        = bad_flag_count 2 tl (elapsed_min r) true true (Some 20) /\
      sum_bool is_warn (flags_list_of (flags r))
        = warn_flag_count (elapsed_min r) true (Some 20) (Some 0.41) true /\
      suggestion h
        = suggestion_of (spec_clv UNDER 231 224)
            (bad_flag_count 2 tl (elapsed_min r) true true (Some 20))
            (warn_flag_count (elapsed_min r) true (Some 20) (Some 0.41) true).
Proof.
  assert (H1 : side_of "under" = Some UNDER) by reflexivity.
  assert (H2 : ~ -110 == 0) by (intro E; discriminate E).
  assert (H3 : ~ -105 == 0) by (intro E; discriminate E).
  eexists. split; [vm_compute; reflexivity|].
  repeat (split; [assumption|]).
  apply (hedge_reads_projection_flags "2026-01-01 20:00:00" 2 "7:10" 60 224
           228.5 None 4 true true 0.25 (Some 20) (Some 0.41) true 6 10 _
           "under" UNDER 231 100 (-110) 224 (-105)); try assumption.
  vm_compute. reflexivity.
Defined.
